(** * resume-parsing-service-client: the retrying HTTP client and its callers

    A shallow embedding of the Go packages [httpclient] and [rps].  Go
    values that may be [nil] (pointers, interfaces, funcs, errors) are
    [option]s; Go [int] and [time.Duration] are [Z]; [[]byte] is
    [list byte]; a Go [string] is a [string].  A function that performs
    I/O is a computation in the monad [M] below, which records what was
    done to the outside world as a trace of events and may panic. *)

From Stdlib Require Import ZArith List String Ascii Bool Lia.
From Stdlib.Strings Require Import Byte.
From Stdlib Require Import DecimalString Permutation.
Import ListNotations.

Local Open Scope string_scope.
Local Open Scope Z_scope.

Definition bytes := list byte.

(** ** Errors

    [error] is Go's [error] interface restricted to the dynamic types that
    occur in the two packages: [errors.New], pkg/errors [Wrap], the
    "giving up" error of the retry loop, and [*HttpError]. *)

#[warnings="-register-all"] Inductive error : Type :=
| ErrNew (msg : string)
| ErrWrap (cause : error) (msg : string)
| ErrGivingUp (method url : string) (attempts : nat) (cause : option error)
| ErrHttp (url : string) (status : Z) (body : string) (cause : option error).

(** [HttpError] is built in httpclient.go by the composite literals
    [&HttpError{Url: .., StatusCode: .., Err: ..}]; a field left out of the
    literal keeps Go's zero value ([0], the empty string, [nil]). *)
Record HttpError : Type := mkHttpError {
  Url : string;
  StatusCode : Z;
  Body : string;
  Err : option error
}.

Definition HttpError_as_error (h : HttpError) : error :=
  ErrHttp (Url h) (StatusCode h) (Body h) (Err h).

Definition itoa (n : Z) : string := NilZero.string_of_int (Z.to_int n).

(** Modelled from the spec: the method [HttpError.Error] (its file is not
    part of the sources at hand).  The rendering is
    [request to <url> failed. httpStatus: [ <code|"no status"> ]
    responseBody: [ <body> ] error: [ <cause|"<nil>"> ]]; the absent status
    is the zero value a composite literal leaves in [StatusCode]. *)
Fixpoint error_Error (e : error) : string :=
  match e with
  | ErrNew msg => msg
  | ErrWrap cause msg => msg ++ ": " ++ error_Error cause
  | ErrGivingUp method url n cause =>
      method ++ " " ++ url ++ " giving up after " ++ itoa (Z.of_nat n)
      ++ " attempt(s)"
      ++ match cause with
         | Some c => ": " ++ error_Error c
         | None => ""
         end
  | ErrHttp url status body cause =>
      "request to " ++ url ++ " failed. httpStatus: [ "
      ++ (if status =? 0 then "no status" else itoa status)
      ++ " ] responseBody: [ " ++ body ++ " ] error: [ "
      ++ match cause with
         | Some c => error_Error c
         | None => "<nil>"
         end
      ++ " ]"
  end.

Definition HttpError_Error (h : HttpError) : string :=
  error_Error (HttpError_as_error h).

(** ** Requests, responses and body streams *)

Inductive Context : Type := ctx_Background | ctx_TODO.

(** An [io.ReadCloser]: [rc_id] names the stream in the trace, [rc_data]
    are the bytes it yields and [rc_err] the error hit while reading it to
    the end ([None] for a clean EOF). *)
Record ReadCloser : Type := mkReadCloser {
  rc_id : nat;
  rc_data : bytes;
  rc_err : option error
}.

Record Request : Type := mkRequest {
  req_ctx : Context;
  Method : string;
  URL : string;
  Header : list (string * string);
  req_Body : bytes
}.

(** An [*http.Response]; its [Body] is never nil, as net/http promises for
    the responses a client returns. *)
Record Response : Type := mkResponse {
  resp_StatusCode : Z;
  resp_Body : ReadCloser
}.

Definition StatusBadRequest : Z := 400.
Definition StatusInternalServerError : Z := 500.
Definition StatusBadGateway : Z := 502.

(** A [func(dump []byte)] value, named by a handle; calling it is recorded
    in the trace. *)
Inductive Logger : Type := LoggerFn (handle : nat).

(** ** Effects *)

Inductive Event : Type :=
| EvAttempt (i : nat)                       (* one network exchange *)
| EvBackoff (waitMin waitMax : Z) (i : nat) (* sleep between attempts *)
| EvBodyRead (id : nat)                     (* ioReadAll on a body *)
| EvBodyDecode (id : nat)                   (* jsonDecode on a body *)
| EvBodyClose (id : nat)                    (* Body.Close() *)
| EvDumpRequestOut (body : bool)            (* dumpRequestOut called *)
| EvLoggerCall (l : Logger) (dump : bytes). (* requestDumpLogger called *)

(** [None] as value is a Go panic (nil dereference); the trace up to the
    panic is kept. *)
Definition M (A : Type) : Type := (option A * list Event)%type.

Definition ret {A} (a : A) : M A := (Some a, []).

Definition bind {A B} (m : M A) (f : A -> M B) : M B :=
  match m with
  | (Some a, t) => let '(b, t') := f a in (b, (t ++ t')%list)
  | (None, t) => (None, t)
  end.

Definition emit (e : Event) : M unit := (Some tt, [e]).

Definition panic {A} : M A := (None, []).

Declare Scope go_scope.
Delimit Scope go_scope with go.
Notation "x <- m ;; k" := (bind m (fun x => k))
  (at level 61, m at next level, right associativity) : go_scope.
Notation "' p <- m ;; k" := (bind m (fun x => match x with p => k end))
  (at level 61, p pattern, m at next level, right associativity) : go_scope.
Notation "m ;; k" := (bind m (fun _ => k))
  (at level 61, right associativity) : go_scope.
Local Open Scope go_scope.

Definition value_of {A} (m : M A) : option A := fst m.
Definition trace_of {A} (m : M A) : list Event := snd m.

(** Observations on a trace. *)

Definition is_attempt (e : Event) : bool :=
  match e with EvAttempt _ => true | _ => false end.

Definition attempts_made (t : list Event) : nat :=
  List.length (filter is_attempt t).

Definition is_close_of (id : nat) (e : Event) : bool :=
  match e with EvBodyClose j => Nat.eqb id j | _ => false end.

Definition closes_of (id : nat) (t : list Event) : nat :=
  List.length (filter (is_close_of id) t).

Definition is_read_of (id : nat) (e : Event) : bool :=
  match e with
  | EvBodyRead j | EvBodyDecode j => Nat.eqb id j
  | _ => false
  end.

Definition reads_of (id : nat) (t : list Event) : nat :=
  List.length (filter (is_read_of id) t).

Fixpoint logger_calls (t : list Event) : list (Logger * bytes) :=
  match t with
  | [] => []
  | EvLoggerCall l d :: t' => (l, d) :: logger_calls t'
  | _ :: t' => logger_calls t'
  end.

Fixpoint serializations (t : list Event) : nat :=
  match t with
  | [] => 0%nat
  | EvDumpRequestOut _ :: t' => S (serializations t')
  | _ :: t' => serializations t'
  end.

Notation "'let?' x := e 'in' k" :=
  (match e with Some x => k | None => None end)
  (at level 10, x name, e at level 100, k at level 200, only parsing).

(** ** The retry dependency *)

Module retryablehttp.

(** [retryablehttp.CheckRetry]: after an attempt, "should retry" and an
    optional error that overrides the attempt's own. *)
Definition CheckRetry : Type :=
  Context -> option Response -> option error -> bool * option error.

(** Modelled from the spec: [retryablehttp.Client], a dependency whose
    source is not part of the repository.  Only the fields the wrapper
    in this repository writes are kept, together with the transport:
    [HTTPClient i req] is the outcome of the [i]-th network exchange
    (counted from 0) for [req]. *)
Record Client : Type := mkClient {
  HTTPClient : nat -> Request -> option Response * option error;
  RetryMax : Z;
  RetryWaitMin : Z;
  RetryWaitMax : Z;
  Client_CheckRetry : CheckRetry
}.

Definition set_RetryMax (c : Client) (n : Z) : Client :=
  mkClient (HTTPClient c) n (RetryWaitMin c) (RetryWaitMax c)
           (Client_CheckRetry c).
Definition set_RetryWaitMin (c : Client) (d : Z) : Client :=
  mkClient (HTTPClient c) (RetryMax c) d (RetryWaitMax c)
           (Client_CheckRetry c).
Definition set_RetryWaitMax (c : Client) (d : Z) : Client :=
  mkClient (HTTPClient c) (RetryMax c) (RetryWaitMin c) d
           (Client_CheckRetry c).
Definition set_CheckRetry (c : Client) (p : CheckRetry) : Client :=
  mkClient (HTTPClient c) (RetryMax c) (RetryWaitMin c) (RetryWaitMax c) p.

Definition last_error (checkErr doErr : option error) : option error :=
  match checkErr with
  | Some e => Some e
  | None => doErr
  end.

(** Modelled from the spec: the retry loop of [retryablehttp.Client.Do]
    (section 4.1 of the specification; the dependency's source is not
    part of the repository).  Perform one attempt and ask the predicate;
    on "do not retry" stop with this attempt's outcome, whatever the
    status code; on "retry" with attempts remaining, wait within the
    backoff window and repeat; with none remaining the outcome carries
    the "giving up after N attempts" error wrapping the last underlying
    error.  [remain] is the number of retries still allowed and [i] the
    index of the attempt about to be made. *)
Fixpoint attempt_loop (c : Client) (req : Request) (remain i : nat)
  : M (option Response * option error) :=
  emit (EvAttempt i) ;;
  let '(resp, doErr) := HTTPClient c i req in
  let '(shouldRetry, checkErr) :=
    Client_CheckRetry c (req_ctx req) resp doErr in
  if negb shouldRetry then ret (resp, last_error checkErr doErr)
  else
    match remain with
    | O =>
        ret (None, Some (ErrGivingUp (Method req) (URL req) (S i)
                                     (last_error checkErr doErr)))
    | S remain' =>
        emit (EvBackoff (RetryWaitMin c) (RetryWaitMax c) i) ;;
        attempt_loop c req remain' (S i)
    end.

Definition Do (c : Client) (req : Request)
  : M (option Response * option error) :=
  attempt_loop c req (Z.to_nat (RetryMax c)) 0.

End retryablehttp.

(** ** Package httpclient *)

Module httpclient.

(** *** retryable_http_client.go *)

(** The interface [retryableHttpClient] as the sum of the types that
    implement it: the wrapper around the dependency, the test double of
    httpclient_test.go (which embeds a nil interface and overrides only
    [Do]), and the nil interface value. *)
Inductive retryableHttpClientIface : Type :=
| nil_retryableHttpClient
| retryableHttpClientWrapper (rhc : retryablehttp.Client)
| retryableHttpClientMock (Resp : option Response) (Err : option error).

(** The setters return [None] where Go panics on a nil receiver. *)
Definition SetRetryMax (r : retryableHttpClientIface) (maxRetries : Z)
  : option retryableHttpClientIface :=
  match r with
  | retryableHttpClientWrapper rhc =>
      Some (retryableHttpClientWrapper
              (retryablehttp.set_RetryMax rhc maxRetries))
  | _ => None
  end.

Definition SetRetryWaitMin (r : retryableHttpClientIface) (minWait : Z)
  : option retryableHttpClientIface :=
  match r with
  | retryableHttpClientWrapper rhc =>
      Some (retryableHttpClientWrapper
              (retryablehttp.set_RetryWaitMin rhc minWait))
  | _ => None
  end.

Definition SetRetryWaitMax (r : retryableHttpClientIface) (maxWait : Z)
  : option retryableHttpClientIface :=
  match r with
  | retryableHttpClientWrapper rhc =>
      Some (retryableHttpClientWrapper
              (retryablehttp.set_RetryWaitMax rhc maxWait))
  | _ => None
  end.

Definition SetCheckRetry (r : retryableHttpClientIface)
           (checkRetry : retryablehttp.CheckRetry)
  : option retryableHttpClientIface :=
  match r with
  | retryableHttpClientWrapper rhc =>
      Some (retryableHttpClientWrapper
              (retryablehttp.set_CheckRetry rhc checkRetry))
  | _ => None
  end.

Definition Do (r : retryableHttpClientIface) (req : Request)
  : M (option Response * option error) :=
  match r with
  | nil_retryableHttpClient => panic
  | retryableHttpClientWrapper rhc => retryablehttp.Do rhc req
  | retryableHttpClientMock Resp Err => ret (Resp, Err)
  end.

(** *** httpclient.go: the client and its construction *)

Record client : Type := mkclient {
  retryableHttpClient : retryableHttpClientIface;
  maxIdleConns : Z;
  maxIdleConnsPerHost : Z;
  maxConnsPerHost : Z;
  maxRetries : Z;
  checkRetryPolicy : option retryablehttp.CheckRetry;
  retryWaitMin : Z;
  retryWaitMax : Z;
  requestDumpLogger : option Logger;
  dumpRequestBody : bool
}.

(** [new(client)]: every field at its zero value. *)
Definition new_client : client :=
  mkclient nil_retryableHttpClient 0 0 0 0 None 0 0 None false.

Definition set_retryableHttpClient (c : client) (r : retryableHttpClientIface) :=
  mkclient r (maxIdleConns c) (maxIdleConnsPerHost c) (maxConnsPerHost c)
           (maxRetries c) (checkRetryPolicy c) (retryWaitMin c)
           (retryWaitMax c) (requestDumpLogger c) (dumpRequestBody c).
Definition set_maxIdleConns (c : client) (n : Z) :=
  mkclient (retryableHttpClient c) n (maxIdleConnsPerHost c)
           (maxConnsPerHost c) (maxRetries c) (checkRetryPolicy c)
           (retryWaitMin c) (retryWaitMax c) (requestDumpLogger c)
           (dumpRequestBody c).
Definition set_maxIdleConnsPerHost (c : client) (n : Z) :=
  mkclient (retryableHttpClient c) (maxIdleConns c) n (maxConnsPerHost c)
           (maxRetries c) (checkRetryPolicy c) (retryWaitMin c)
           (retryWaitMax c) (requestDumpLogger c) (dumpRequestBody c).
Definition set_maxConnsPerHost (c : client) (n : Z) :=
  mkclient (retryableHttpClient c) (maxIdleConns c) (maxIdleConnsPerHost c)
           n (maxRetries c) (checkRetryPolicy c) (retryWaitMin c)
           (retryWaitMax c) (requestDumpLogger c) (dumpRequestBody c).
Definition set_maxRetries (c : client) (n : Z) :=
  mkclient (retryableHttpClient c) (maxIdleConns c) (maxIdleConnsPerHost c)
           (maxConnsPerHost c) n (checkRetryPolicy c) (retryWaitMin c)
           (retryWaitMax c) (requestDumpLogger c) (dumpRequestBody c).
Definition set_checkRetryPolicy (c : client)
           (p : option retryablehttp.CheckRetry) :=
  mkclient (retryableHttpClient c) (maxIdleConns c) (maxIdleConnsPerHost c)
           (maxConnsPerHost c) (maxRetries c) p (retryWaitMin c)
           (retryWaitMax c) (requestDumpLogger c) (dumpRequestBody c).
Definition set_retryWaitMin (c : client) (d : Z) :=
  mkclient (retryableHttpClient c) (maxIdleConns c) (maxIdleConnsPerHost c)
           (maxConnsPerHost c) (maxRetries c) (checkRetryPolicy c) d
           (retryWaitMax c) (requestDumpLogger c) (dumpRequestBody c).
Definition set_retryWaitMax (c : client) (d : Z) :=
  mkclient (retryableHttpClient c) (maxIdleConns c) (maxIdleConnsPerHost c)
           (maxConnsPerHost c) (maxRetries c) (checkRetryPolicy c)
           (retryWaitMin c) d (requestDumpLogger c) (dumpRequestBody c).
Definition set_requestDumpLogger (c : client) (l : option Logger) :=
  mkclient (retryableHttpClient c) (maxIdleConns c) (maxIdleConnsPerHost c)
           (maxConnsPerHost c) (maxRetries c) (checkRetryPolicy c)
           (retryWaitMin c) (retryWaitMax c) l (dumpRequestBody c).
Definition set_dumpRequestBody (c : client) (b : bool) :=
  mkclient (retryableHttpClient c) (maxIdleConns c) (maxIdleConnsPerHost c)
           (maxConnsPerHost c) (maxRetries c) (checkRetryPolicy c)
           (retryWaitMin c) (retryWaitMax c) (requestDumpLogger c) b.

(** *** options.go *)

Definition Option : Type := client -> client.

Definition WithMaxIdleConns (n : Z) : Option :=
  fun c => set_maxIdleConns c n.
Definition WithMaxIdleConnsPerHost (n : Z) : Option :=
  fun c => set_maxIdleConnsPerHost c n.
Definition WithMaxConnsPerHost (n : Z) : Option :=
  fun c => set_maxConnsPerHost c n.
Definition WithMaxRetries (n : Z) : Option :=
  fun c => set_maxRetries c n.
Definition WithRetryWaitMin (n : Z) : Option :=
  fun c => set_retryWaitMin c n.
Definition WithRetryWaitMax (n : Z) : Option :=
  fun c => set_retryWaitMax c n.
Definition WithCheckRetryPolicy (checkRetryPolicy : option retryablehttp.CheckRetry)
  : Option :=
  fun c => set_checkRetryPolicy c checkRetryPolicy.
Definition WithRequestDumpLogger (requestDumpLogger : option Logger)
           (dumpRequestBody : bool) : Option :=
  fun c =>
    let c := set_requestDumpLogger c requestDumpLogger in
    set_dumpRequestBody c dumpRequestBody.

(** The option expressions a caller can write: one constructor per
    function of options.go, read back by [denote]. *)
Inductive OptionExpr : Type :=
| EMaxIdleConns (n : Z)
| EMaxIdleConnsPerHost (n : Z)
| EMaxConnsPerHost (n : Z)
| EMaxRetries (n : Z)
| ERetryWaitMin (n : Z)
| ERetryWaitMax (n : Z)
| ECheckRetryPolicy (p : option retryablehttp.CheckRetry)
| ERequestDumpLogger (l : option Logger) (b : bool).

Definition denote (e : OptionExpr) : Option :=
  match e with
  | EMaxIdleConns n => WithMaxIdleConns n
  | EMaxIdleConnsPerHost n => WithMaxIdleConnsPerHost n
  | EMaxConnsPerHost n => WithMaxConnsPerHost n
  | EMaxRetries n => WithMaxRetries n
  | ERetryWaitMin n => WithRetryWaitMin n
  | ERetryWaitMax n => WithRetryWaitMax n
  | ECheckRetryPolicy p => WithCheckRetryPolicy p
  | ERequestDumpLogger l b => WithRequestDumpLogger l b
  end.

Definition is_CheckRetryPolicy (e : OptionExpr) : bool :=
  match e with ECheckRetryPolicy _ => true | _ => false end.

Definition is_RequestDumpLogger (e : OptionExpr) : bool :=
  match e with ERequestDumpLogger _ _ => true | _ => false end.

Definition doNotRetryPolicy : retryablehttp.CheckRetry :=
  fun ctx resp err => (false, None).

Definition patchRetryableClient (c : client) : option client :=
  let? r := SetRetryMax (retryableHttpClient c) (maxRetries c) in
  let? r := SetRetryWaitMin r (retryWaitMin c) in
  let? r := SetRetryWaitMax r (retryWaitMax c) in
  let? r := SetCheckRetry r doNotRetryPolicy in
  let? r := match checkRetryPolicy c with
            | Some p => SetCheckRetry r p
            | None => Some r
            end in
  Some (set_retryableHttpClient c r).

Definition newClient (options : list Option) : client :=
  fold_left (fun client option => option client) options new_client.

(** [New]; [NewClient] stands for the value [retryablehttp.NewClient()]
    returns, transport included. *)
Definition New (NewClient : retryablehttp.Client) (options : list Option)
  : option client :=
  let client := newClient options in
  let client :=
    set_retryableHttpClient client (retryableHttpClientWrapper NewClient) in
  patchRetryableClient client.

(** *** httpclient.go: sending a request

    The package-level function variables [ioReadAll], [jsonDecode] and
    [dumpRequestOut] exist so that tests can replace them; they are
    parameters here.  Each returns Go's pair of a result and an error.
    [Value] is the type behind the decode target [v]: [Some d] is a
    pointer to a variable holding [d], and the variable's content after
    the call is returned next to the response. *)

Section Hooks.

Variable Value : Type.
Variable ioReadAll : ReadCloser -> bytes * option error.
Variable jsonDecode : ReadCloser -> Value -> Value * option error.
Variable dumpRequestOut : Request -> bool -> bytes * option error.

Definition handleUnsuccessfulResponse (url : string)
           (resp : option Response) (receivedError : option error)
  : M (option HttpError) :=
  let no_response_error :=
    match receivedError with
    | Some e => ret (Some (mkHttpError url 0 "" (Some e)))
    | None => ret None
    end in
  match resp with
  | Some r =>
      if StatusBadRequest <=? resp_StatusCode r then
        let body := resp_Body r in
        emit (EvBodyRead (rc_id body)) ;;
        let '(respErr, err) := ioReadAll body in
        match err with
        | Some e =>
            emit (EvBodyClose (rc_id body)) ;;
            ret (Some (mkHttpError url (resp_StatusCode r) ""
                         (Some (ErrWrap e "parsing response"))))
        | None =>
            emit (EvBodyClose (rc_id body)) ;;
            ret (Some (mkHttpError url (resp_StatusCode r)
                         (string_of_list_byte respErr) receivedError))
        end
      else no_response_error
  | None => no_response_error
  end.

Definition decodeResponse (url : string) (resp : option Response)
           (v : option Value) : M (option Value * option HttpError) :=
  match v with
  | Some d =>
      match resp with
      | Some r =>
          let body := resp_Body r in
          emit (EvBodyDecode (rc_id body)) ;;
          let '(d', err) := jsonDecode body d in
          match err with
          | Some e =>
              emit (EvBodyClose (rc_id body)) ;;
              ret (Some d',
                   Some (mkHttpError url (resp_StatusCode r) ""
                           (Some (ErrWrap e "decoding response"))))
          | None =>
              emit (EvBodyClose (rc_id body)) ;;
              ret (Some d', None)
          end
      | None => ret (v, None)
      end
  | None => ret (None, None)
  end.

(** What a call hands back: the response, the decode target's content
    and the error. *)
Definition Result : Type :=
  (option Response * option Value * option HttpError)%type.

Definition client_do (c : client) (req : Request) (v : option Value)
  : M Result :=
  '(resp, err) <- Do (retryableHttpClient c) req ;;
  herr <- handleUnsuccessfulResponse (URL req) resp err ;;
  match herr with
  | Some e => ret (resp, v, Some e)
  | None =>
      '(v', derr) <- decodeResponse (URL req) resp v ;;
      match derr with
      | Some e => ret (resp, v', Some e)
      | None => ret (resp, v', None)
      end
  end.

Definition logRequestDump (c : client) (req : Request) : M unit :=
  match requestDumpLogger c with
  | Some logger =>
      emit (EvDumpRequestOut (dumpRequestBody c)) ;;
      let '(dump, err) := dumpRequestOut req (dumpRequestBody c) in
      match err with
      | None => emit (EvLoggerCall logger dump)
      | Some _ => ret tt
      end
  | None => ret tt
  end.

Definition sendRequest (c : client) (req : Request) (v : option Value)
  : M Result :=
  logRequestDump c req ;;
  '(resp, v', err) <- client_do c req v ;;
  match err with
  | Some e => ret (resp, v', Some e)
  | None => ret (resp, v', None)
  end.

Definition SendRequest (c : client) (req : Request) : M Result :=
  sendRequest c req None.

Definition SendRequestAndUnmarshallJsonResponse (c : client)
           (req : Request) (v : option Value) : M Result :=
  sendRequest c req v.

End Hooks.

End httpclient.

(** ** Package rps *)

Module rps.

(** *** models.go *)

Record parseDocumentRequest : Type := mkparseDocumentRequest {
  Base64Data : string
}.

(** *** resume_parsing_service_client.go *)

Record resumeParsingServiceClient : Type := mkresumeParsingServiceClient {
  rioParseToken : string;
  rioParseBaseUrl : string;
  checkRetryPolicy : option retryablehttp.CheckRetry;
  maxIdleConns : Z;
  maxIdleConnsPerHost : Z;
  maxConnsPerHost : Z;
  maxRetries : Z;
  retryWaitMin : Z;
  retryWaitMax : Z;
  requestDumpLogger : option Logger;
  dumpRequestBody : bool;
  (** the interface [httpclient.Client]; [None] is the nil interface *)
  httpClient : option httpclient.client
}.

Definition new_resumeParsingServiceClient : resumeParsingServiceClient :=
  mkresumeParsingServiceClient "" "" None 0 0 0 0 0 0 None false None.

(** *** options.go *)

Definition Option : Type :=
  resumeParsingServiceClient -> resumeParsingServiceClient.

Definition WithMaxIdleConns (n : Z) : Option := fun c =>
  mkresumeParsingServiceClient
    (rioParseToken c) (rioParseBaseUrl c) (checkRetryPolicy c)
    n (maxIdleConnsPerHost c) (maxConnsPerHost c) (maxRetries c)
    (retryWaitMin c) (retryWaitMax c) (requestDumpLogger c)
    (dumpRequestBody c) (httpClient c).
Definition WithMaxIdleConnsPerHost (n : Z) : Option := fun c =>
  mkresumeParsingServiceClient
    (rioParseToken c) (rioParseBaseUrl c) (checkRetryPolicy c)
    (maxIdleConns c) n (maxConnsPerHost c) (maxRetries c)
    (retryWaitMin c) (retryWaitMax c) (requestDumpLogger c)
    (dumpRequestBody c) (httpClient c).
Definition WithMaxConnsPerHost (n : Z) : Option := fun c =>
  mkresumeParsingServiceClient
    (rioParseToken c) (rioParseBaseUrl c) (checkRetryPolicy c)
    (maxIdleConns c) (maxIdleConnsPerHost c) n (maxRetries c)
    (retryWaitMin c) (retryWaitMax c) (requestDumpLogger c)
    (dumpRequestBody c) (httpClient c).
Definition WithMaxRetries (n : Z) : Option := fun c =>
  mkresumeParsingServiceClient
    (rioParseToken c) (rioParseBaseUrl c) (checkRetryPolicy c)
    (maxIdleConns c) (maxIdleConnsPerHost c) (maxConnsPerHost c) n
    (retryWaitMin c) (retryWaitMax c) (requestDumpLogger c)
    (dumpRequestBody c) (httpClient c).
Definition WithRetryWaitMin (d : Z) : Option := fun c =>
  mkresumeParsingServiceClient
    (rioParseToken c) (rioParseBaseUrl c) (checkRetryPolicy c)
    (maxIdleConns c) (maxIdleConnsPerHost c) (maxConnsPerHost c)
    (maxRetries c) d (retryWaitMax c) (requestDumpLogger c)
    (dumpRequestBody c) (httpClient c).
Definition WithRetryWaitMax (d : Z) : Option := fun c =>
  mkresumeParsingServiceClient
    (rioParseToken c) (rioParseBaseUrl c) (checkRetryPolicy c)
    (maxIdleConns c) (maxIdleConnsPerHost c) (maxConnsPerHost c)
    (maxRetries c) (retryWaitMin c) d (requestDumpLogger c)
    (dumpRequestBody c) (httpClient c).
Definition WithCheckRetryPolicy
           (checkRetryPolicy' : option retryablehttp.CheckRetry) : Option :=
  fun c =>
  mkresumeParsingServiceClient
    (rioParseToken c) (rioParseBaseUrl c) checkRetryPolicy'
    (maxIdleConns c) (maxIdleConnsPerHost c) (maxConnsPerHost c)
    (maxRetries c) (retryWaitMin c) (retryWaitMax c) (requestDumpLogger c)
    (dumpRequestBody c) (httpClient c).
Definition WithRequestDumpLogger (requestDumpLogger' : option Logger)
           (dumpRequestBody' : bool) : Option := fun c =>
  mkresumeParsingServiceClient
    (rioParseToken c) (rioParseBaseUrl c) (checkRetryPolicy c)
    (maxIdleConns c) (maxIdleConnsPerHost c) (maxConnsPerHost c)
    (maxRetries c) (retryWaitMin c) (retryWaitMax c) requestDumpLogger'
    dumpRequestBody' (httpClient c).

Inductive OptionExpr : Type :=
| EMaxIdleConns (n : Z)
| EMaxIdleConnsPerHost (n : Z)
| EMaxConnsPerHost (n : Z)
| EMaxRetries (n : Z)
| ERetryWaitMin (d : Z)
| ERetryWaitMax (d : Z)
| ECheckRetryPolicy (p : option retryablehttp.CheckRetry)
| ERequestDumpLogger (l : option Logger) (b : bool).

Definition denote (e : OptionExpr) : Option :=
  match e with
  | EMaxIdleConns n => WithMaxIdleConns n
  | EMaxIdleConnsPerHost n => WithMaxIdleConnsPerHost n
  | EMaxConnsPerHost n => WithMaxConnsPerHost n
  | EMaxRetries n => WithMaxRetries n
  | ERetryWaitMin d => WithRetryWaitMin d
  | ERetryWaitMax d => WithRetryWaitMax d
  | ECheckRetryPolicy p => WithCheckRetryPolicy p
  | ERequestDumpLogger l b => WithRequestDumpLogger l b
  end.

Definition is_RequestDumpLogger (e : OptionExpr) : bool :=
  match e with ERequestDumpLogger _ _ => true | _ => false end.

Definition newResumeParsingServiceClient (options : list Option)
  : resumeParsingServiceClient :=
  fold_left (fun client option => option client) options
            new_resumeParsingServiceClient.

(** [http.Header.Set]; net/http's canonical spelling of the key is not
    modelled. *)
Definition Header_Set (h : list (string * string)) (k v : string)
  : list (string * string) :=
  (k, v) :: filter (fun kv => negb (String.eqb (fst kv) k)) h.

Definition set_Header (req : Request) (h : list (string * string)) : Request :=
  mkRequest (req_ctx req) (Method req) (URL req) h (req_Body req).

Section Hooks.

(** [Resume] is the struct of models.go the response is decoded into;
    only its zero value is needed here. *)
Variable Resume : Type.
Variable zero_Resume : Resume.
Variable ioReadAll : ReadCloser -> bytes * option error.
Variable jsonDecode : ReadCloser -> Resume -> Resume * option error.
Variable dumpRequestOut : Request -> bool -> bytes * option error.
(** The package's own function variables, and [base64.StdEncoding]. *)
Variable jsonMarshal : parseDocumentRequest -> bytes * option error.
Variable newRequestWithContext :
  Context -> string -> string -> bytes -> option Request * option error.
Variable newHttpClient : list httpclient.Option -> option httpclient.client.
Variable base64_EncodeToString : bytes -> string.

Definition NewResumeParsingServiceClient (rioParseToken' rioParseBaseUrl' : string)
           (options : list Option) : option resumeParsingServiceClient :=
  let client := newResumeParsingServiceClient options in
  let? h := newHttpClient
              [ httpclient.WithMaxIdleConns (maxIdleConns client);
                httpclient.WithMaxIdleConnsPerHost (maxIdleConnsPerHost client);
                httpclient.WithMaxConnsPerHost (maxConnsPerHost client);
                httpclient.WithMaxRetries (maxRetries client);
                httpclient.WithRetryWaitMin (retryWaitMin client);
                httpclient.WithRetryWaitMax (retryWaitMax client);
                httpclient.WithCheckRetryPolicy (checkRetryPolicy client);
                httpclient.WithRequestDumpLogger (requestDumpLogger client)
                                                 (dumpRequestBody client) ] in
  Some (mkresumeParsingServiceClient
          rioParseToken' rioParseBaseUrl' (checkRetryPolicy client)
          (maxIdleConns client) (maxIdleConnsPerHost client)
          (maxConnsPerHost client) (maxRetries client)
          (retryWaitMin client) (retryWaitMax client)
          (requestDumpLogger client) (dumpRequestBody client) (Some h)).

Definition ParseDocument (r : resumeParsingServiceClient) (ctx : Context)
           (fileContents : bytes) : M (option Resume * option error) :=
  let url := rioParseBaseUrl r ++ "/" ++ "api/parse" in
  let encodedFileContents := base64_EncodeToString fileContents in
  let parseDocumentRequest := mkparseDocumentRequest encodedFileContents in
  let '(j, err) := jsonMarshal parseDocumentRequest in
  match err with
  | Some e =>
      ret (None, Some (ErrWrap e "marshalling parse document request"))
  | None =>
      let '(req, err) := newRequestWithContext ctx "POST" url j in
      match err with
      | Some e => ret (None, Some (ErrWrap e "creating request"))
      | None =>
          match req, httpClient r with
          | Some req, Some h =>
              let req := set_Header req
                           (Header_Set (Header req) "Content-Type"
                                       "application/json") in
              let req := set_Header req
                           (Header_Set (Header req) "token"
                                       (rioParseToken r)) in
              '(resp, resume, err) <-
                httpclient.SendRequestAndUnmarshallJsonResponse
                  Resume ioReadAll jsonDecode dumpRequestOut
                  h req (Some zero_Resume) ;;
              match err with
              | Some e =>
                  ret (None, Some (ErrWrap (HttpError_as_error e)
                                           "performing request"))
              | None =>
                  match resp with
                  | Some resp =>
                      (* defer resp.Body.Close() *)
                      emit (EvBodyClose (rc_id (resp_Body resp))) ;;
                      ret (resume, None)
                  | None => panic
                  end
              end
          | _, _ => panic
          end
      end
  end.

End Hooks.

End rps.

(** ** The serializer of the dump

    [dumpRequestOut] starts out as [httputil.DumpRequestOut] of Go's
    library, which the repository calls and does not contain.  What the
    repository shows of it are two recorded dumps: the one the test
    "dumping request" of httpclient_test.go expects, and the sample
    output of the README. *)

Module httputil.

Definition CRLF : string := String "013" (String "010" "").

(** Modelled from the spec: the URL without its scheme, then split at the
    first slash into host and path; an empty path is [/]. *)
Definition strip_scheme (url : string) : string :=
  if String.prefix "http://" url
  then substring 7 (String.length url - 7) url
  else if String.prefix "https://" url
       then substring 8 (String.length url - 8) url
       else url.

Fixpoint host_and_path (s : string) : string * string :=
  match s with
  | EmptyString => ("", "/")
  | String c s' =>
      if Ascii.eqb c "/" then ("", s)
      else let '(h, p) := host_and_path s' in (String c h, p)
  end.

(** Modelled from the spec: header names in their canonical spelling, a
    capital at the start and after each hyphen, small letters elsewhere. *)
Definition to_upper (c : ascii) : ascii :=
  let n := nat_of_ascii c in
  if (97 <=? n)%nat && (n <=? 122)%nat then ascii_of_nat (n - 32) else c.

Definition to_lower (c : ascii) : ascii :=
  let n := nat_of_ascii c in
  if (65 <=? n)%nat && (n <=? 90)%nat then ascii_of_nat (n + 32) else c.

Fixpoint canonical (upper : bool) (s : string) : string :=
  match s with
  | EmptyString => EmptyString
  | String c s' =>
      String (if upper then to_upper c else to_lower c)
             (canonical (Ascii.eqb c "-") s')
  end.

Definition CanonicalMIMEHeaderKey (s : string) : string := canonical true s.

(** Modelled from the spec: the request's own headers, by name. *)
Fixpoint insert_header (kv : string * string) (l : list (string * string))
  : list (string * string) :=
  match l with
  | [] => [kv]
  | kv' :: l' =>
      if String.leb (fst kv) (fst kv') then kv :: l
      else kv' :: insert_header kv l'
  end.

Definition sorted_headers (h : list (string * string))
  : list (string * string) :=
  fold_right insert_header []
             (map (fun kv => (CanonicalMIMEHeaderKey (fst kv), snd kv)) h).

Definition header_lines (h : list (string * string)) : string :=
  String.concat "" (map (fun kv => fst kv ++ ": " ++ snd kv ++ CRLF) h).

(** Modelled from the spec: a length is announced for a body that is not
    empty, and for an empty one under the methods that ordinarily carry a
    body (the recorded dump of a POST without body has
    [Content-Length: 0]). *)
Definition sends_content_length (method : string) (n : nat) : bool :=
  (0 <? n)%nat
  || String.eqb method "POST" || String.eqb method "PUT"
  || String.eqb method "PATCH".

(** Modelled from the spec: the head of a dump.  The specification has the
    request "serialized to wire format (headers always; body only if
    dump_body is enabled)"; the head is laid out as the two recorded dumps
    show it: request line with the path, [Host], [User-Agent],
    [Content-Length], the request's own headers by name,
    [Accept-Encoding], and an empty line.  It covers requests as the
    repository builds them: a URL of scheme, host and path, a body of
    known length, and no header of the request's own among the four that
    the head supplies. *)
Definition request_head (req : Request) : bytes :=
  let '(host, path) := host_and_path (strip_scheme (URL req)) in
  list_byte_of_string
    (Method req ++ " " ++ path ++ " HTTP/1.1" ++ CRLF
     ++ "Host: " ++ host ++ CRLF
     ++ "User-Agent: Go-http-client/1.1" ++ CRLF
     ++ (if sends_content_length (Method req) (List.length (req_Body req))
         then "Content-Length: "
              ++ itoa (Z.of_nat (List.length (req_Body req))) ++ CRLF
         else "")
     ++ header_lines (sorted_headers (Header req))
     ++ "Accept-Encoding: gzip" ++ CRLF
     ++ CRLF).

(** Modelled from the spec: [httputil.DumpRequestOut], the head and, when
    [body] is set, the body after it. *)
Definition DumpRequestOut (req : Request) (body : bool)
  : bytes * option error :=
  ((request_head req ++ (if body then req_Body req else []))%list, None).

End httputil.

(** * Observations

    Definitions the statements below are written with: what a run looked
    like, what a constructed client carries, which fields an option
    writes. *)

Section Observations.

Import httpclient.

Variable Value : Type.
Variable ioReadAll : ReadCloser -> bytes * option error.
Variable jsonDecode : ReadCloser -> Value -> Value * option error.
Variable dumpRequestOut : Request -> bool -> bytes * option error.

(** The predicate's answer after the attempt of index [i]. *)
Definition decision (c : retryablehttp.Client) (req : Request) (i : nat)
  : bool * option error :=
  retryablehttp.Client_CheckRetry
    c (req_ctx req)
    (fst (retryablehttp.HTTPClient c i req))
    (snd (retryablehttp.HTTPClient c i req)).

(** What the loop returns when it stops at the attempt of index [i]. *)
Definition outcome (c : retryablehttp.Client) (req : Request) (i : nat)
  : option Response * option error :=
  (fst (retryablehttp.HTTPClient c i req),
   retryablehttp.last_error (snd (decision c req i))
                            (snd (retryablehttp.HTTPClient c i req))).

(** The retry predicate a constructed client carries into its retry
    loop, and one [Do] of a constructed client. *)
Definition installed_CheckRetry (c : option client)
  : option retryablehttp.CheckRetry :=
  match c with
  | Some c =>
      match retryableHttpClient c with
      | retryableHttpClientWrapper rhc =>
          Some (retryablehttp.Client_CheckRetry rhc)
      | _ => None
      end
  | None => None
  end.

Definition run_Do (c : option client) (req : Request)
  : M (option Response * option error) :=
  match c with
  | Some c => Do (retryableHttpClient c) req
  | None => panic
  end.

Definition policy_or_default (p : option retryablehttp.CheckRetry)
  : retryablehttp.CheckRetry :=
  match p with
  | Some p => p
  | None => doNotRetryPolicy
  end.

(** The predicate's answer after the [k]-th attempt, counted from 1. *)
Definition answer (NewClient : retryablehttp.Client)
           (p : retryablehttp.CheckRetry) (req : Request) (k : nat)
  : bool * option error :=
  p (req_ctx req)
    (fst (retryablehttp.HTTPClient NewClient (k - 1) req))
    (snd (retryablehttp.HTTPClient NewClient (k - 1) req)).

(** A client whose [Do] hands back a given final outcome: the wrapper is
    replaced by the test double, as httpclient_test.go does. *)
Definition with_final_outcome (c : client) (resp : option Response)
           (err : option error) : client :=
  set_retryableHttpClient c (retryableHttpClientMock resp err).

(** The error [handleUnsuccessfulResponse] builds for a status of 400 or
    more. *)
Definition unsuccessful_response_error (url : string) (r : Response)
           (receivedError : option error) : HttpError :=
  match ioReadAll (resp_Body r) with
  | (respErr, None) =>
      mkHttpError url (resp_StatusCode r) (string_of_list_byte respErr)
                  receivedError
  | (_, Some e) =>
      mkHttpError url (resp_StatusCode r) ""
                  (Some (ErrWrap e "parsing response"))
  end.

(** The same client with no dump logger configured. *)
Definition without_dump_logger (c : client) : client :=
  set_requestDumpLogger c None.

(** [ioReadAll]'s initial value, [io.ReadAll]: the bytes of the stream and
    the error that ended the read, if any. *)
Definition io_ReadAll (r : ReadCloser) : bytes * option error :=
  (rc_data r, rc_err r).

Definition run_SendRequest (c : option client) (req : Request)
  : M (option Response * option Value * option HttpError) :=
  match c with
  | Some c => SendRequest Value io_ReadAll jsonDecode dumpRequestOut c req
  | None => panic
  end.

(** The request [ParseDocument] sends, given the one
    [newRequestWithContext] made. *)
Definition with_headers (r : rps.resumeParsingServiceClient) (req : Request)
  : Request :=
  let req := rps.set_Header req
               (rps.Header_Set (Header req) "Content-Type"
                               "application/json") in
  rps.set_Header req
    (rps.Header_Set (Header req) "token" (rps.rioParseToken r)).

End Observations.

(** What the dump hook leaves in a trace. *)
Definition is_dump_event (e : Event) : bool :=
  match e with
  | EvDumpRequestOut _ | EvLoggerCall _ _ => true
  | _ => false
  end.

Definition dump_events (t : list Event) : list Event := filter is_dump_event t.

Definition set_req_Body (req : Request) (body : bytes) : Request :=
  mkRequest (req_ctx req) (Method req) (URL req) (Header req) body.

(** [l] occurs in [d] as a run of consecutive bytes. *)
Definition occurs_in (l d : bytes) : Prop :=
  exists before after, d = (before ++ l ++ after)%list.

(** ** Which fields an option writes *)

Module httpclient_fields.

Import httpclient.

Inductive field : Type :=
| f_retryableHttpClient | f_maxIdleConns | f_maxIdleConnsPerHost
| f_maxConnsPerHost | f_maxRetries | f_checkRetryPolicy | f_retryWaitMin
| f_retryWaitMax | f_requestDumpLogger | f_dumpRequestBody.

Definition all_fields : list field :=
  [ f_retryableHttpClient; f_maxIdleConns; f_maxIdleConnsPerHost;
    f_maxConnsPerHost; f_maxRetries; f_checkRetryPolicy; f_retryWaitMin;
    f_retryWaitMax; f_requestDumpLogger; f_dumpRequestBody ].

(** Field [f] holds the same value in [c] and [c']. *)
Definition same_at (f : field) (c c' : client) : Prop :=
  match f with
  | f_retryableHttpClient => retryableHttpClient c = retryableHttpClient c'
  | f_maxIdleConns => maxIdleConns c = maxIdleConns c'
  | f_maxIdleConnsPerHost => maxIdleConnsPerHost c = maxIdleConnsPerHost c'
  | f_maxConnsPerHost => maxConnsPerHost c = maxConnsPerHost c'
  | f_maxRetries => maxRetries c = maxRetries c'
  | f_checkRetryPolicy => checkRetryPolicy c = checkRetryPolicy c'
  | f_retryWaitMin => retryWaitMin c = retryWaitMin c'
  | f_retryWaitMax => retryWaitMax c = retryWaitMax c'
  | f_requestDumpLogger => requestDumpLogger c = requestDumpLogger c'
  | f_dumpRequestBody => dumpRequestBody c = dumpRequestBody c'
  end.

(** The fields the body of each option function assigns. *)
Definition assigns (e : OptionExpr) (f : field) : bool :=
  match e, f with
  | EMaxIdleConns _, f_maxIdleConns
  | EMaxIdleConnsPerHost _, f_maxIdleConnsPerHost
  | EMaxConnsPerHost _, f_maxConnsPerHost
  | EMaxRetries _, f_maxRetries
  | ERetryWaitMin _, f_retryWaitMin
  | ERetryWaitMax _, f_retryWaitMax
  | ECheckRetryPolicy _, f_checkRetryPolicy
  | ERequestDumpLogger _ _, f_requestDumpLogger
  | ERequestDumpLogger _ _, f_dumpRequestBody => true
  | _, _ => false
  end.

(** An option that leaves every field but one as it found it. *)
Definition mutates_one_field (o : Option) : Prop :=
  exists f, forall c g, g <> f -> same_at g c (o c).

End httpclient_fields.

Module rps_fields.

Import rps.

Inductive field : Type :=
| f_rioParseToken | f_rioParseBaseUrl | f_checkRetryPolicy | f_maxIdleConns
| f_maxIdleConnsPerHost | f_maxConnsPerHost | f_maxRetries | f_retryWaitMin
| f_retryWaitMax | f_requestDumpLogger | f_dumpRequestBody | f_httpClient.

Definition all_fields : list field :=
  [ f_rioParseToken; f_rioParseBaseUrl; f_checkRetryPolicy; f_maxIdleConns;
    f_maxIdleConnsPerHost; f_maxConnsPerHost; f_maxRetries; f_retryWaitMin;
    f_retryWaitMax; f_requestDumpLogger; f_dumpRequestBody; f_httpClient ].

Definition same_at (f : field) (c c' : resumeParsingServiceClient) : Prop :=
  match f with
  | f_rioParseToken => rioParseToken c = rioParseToken c'
  | f_rioParseBaseUrl => rioParseBaseUrl c = rioParseBaseUrl c'
  | f_checkRetryPolicy => checkRetryPolicy c = checkRetryPolicy c'
  | f_maxIdleConns => maxIdleConns c = maxIdleConns c'
  | f_maxIdleConnsPerHost => maxIdleConnsPerHost c = maxIdleConnsPerHost c'
  | f_maxConnsPerHost => maxConnsPerHost c = maxConnsPerHost c'
  | f_maxRetries => maxRetries c = maxRetries c'
  | f_retryWaitMin => retryWaitMin c = retryWaitMin c'
  | f_retryWaitMax => retryWaitMax c = retryWaitMax c'
  | f_requestDumpLogger => requestDumpLogger c = requestDumpLogger c'
  | f_dumpRequestBody => dumpRequestBody c = dumpRequestBody c'
  | f_httpClient => httpClient c = httpClient c'
  end.

Definition assigns (e : OptionExpr) (f : field) : bool :=
  match e, f with
  | EMaxIdleConns _, f_maxIdleConns
  | EMaxIdleConnsPerHost _, f_maxIdleConnsPerHost
  | EMaxConnsPerHost _, f_maxConnsPerHost
  | EMaxRetries _, f_maxRetries
  | ERetryWaitMin _, f_retryWaitMin
  | ERetryWaitMax _, f_retryWaitMax
  | ECheckRetryPolicy _, f_checkRetryPolicy
  | ERequestDumpLogger _ _, f_requestDumpLogger
  | ERequestDumpLogger _ _, f_dumpRequestBody => true
  | _, _ => false
  end.

Definition mutates_one_field (o : Option) : Prop :=
  exists f, forall c g, g <> f -> same_at g c (o c).

End rps_fields.

(** * Scenarios

    The values the tests and the examples of the repository use, to run
    the definitions above on. *)

Module example.

Definition quote : string := String "034" "".
Definition CRLF : string := String "013" (String "010" "").

(** [io.NopCloser(bytes.NewReader([]byte(s)))], named [id]. *)
Definition NopCloser (id : nat) (s : string) : ReadCloser :=
  mkReadCloser id (list_byte_of_string s) None.

(** example/with-options/example.go *)
Definition retryIfInternalServerError : retryablehttp.CheckRetry :=
  fun ctx resp err =>
    match resp with
    | Some r =>
        if resp_StatusCode r =? StatusInternalServerError
        then (true, err)
        else (false, err)
    | None => (false, err)
    end.

(** The dependency's default predicate, as the comment on
    [doNotRetryPolicy] describes it: it retries whenever the status is
    500 or more.  [New] overwrites it in every client. *)
Definition DefaultRetryPolicy : retryablehttp.CheckRetry :=
  fun ctx resp err =>
    match resp with
    | Some r => (500 <=? resp_StatusCode r, None)
    | None => (match err with Some _ => true | None => false end, None)
    end.

(** A value for [retryablehttp.NewClient()] over a given transport. *)
Definition NewClient
           (transport : nat -> Request -> option Response * option error)
  : retryablehttp.Client :=
  retryablehttp.mkClient transport 4 1000000000 30000000000
                         DefaultRetryPolicy.

(** Servers: one that always answers the same, and one that fails with
    500 once and then answers 200. *)
Definition server_always (status : Z) (body : string)
  : nat -> Request -> option Response * option error :=
  fun i _ => (Some (mkResponse status (NopCloser i body)), None).

Definition server_500_then_200 (body : string)
  : nat -> Request -> option Response * option error :=
  fun i _ =>
    match i with
    | O => (Some (mkResponse 500 (NopCloser i "")), None)
    | S _ => (Some (mkResponse 200 (NopCloser i body)), None)
    end.

(** [http.NewRequest(http.MethodPost, "http://localhost/some/path", nil)] *)
Definition some_path_request : Request :=
  mkRequest ctx_Background "POST" "http://localhost/some/path" [] [].

(** httpclient_test.go: [dummyType] and a decoder for the one shape of
    JSON the tests feed it, an object with a single string member. *)
Record dummyType : Type := mkdummyType { Key : string }.

Fixpoint strip_prefix (p l : bytes) : option bytes :=
  match p, l with
  | [], _ => Some l
  | a :: p', b :: l' => if Byte.eqb a b then strip_prefix p' l' else None
  | _ :: _, [] => None
  end.

Definition strip_suffix (s l : bytes) : option bytes :=
  option_map (@rev byte) (strip_prefix (rev s) (rev l)).

Definition decode_string_member (name : string) (data : bytes)
  : option string :=
  match strip_prefix
          (list_byte_of_string ("{" ++ quote ++ name ++ quote ++ ":" ++ quote))
          data with
  | Some rest =>
      option_map string_of_list_byte
                 (strip_suffix (list_byte_of_string (quote ++ "}")) rest)
  | None => None
  end.

Definition jsonDecode_member (name : string) (r : ReadCloser) (d : string)
  : string * option error :=
  match rc_err r with
  | Some e => (d, Some e)
  | None =>
      match decode_string_member name (rc_data r) with
      | Some s => (s, None)
      | None => (d, Some (ErrNew "invalid character"))
      end
  end.

Definition jsonDecode_dummyType (r : ReadCloser) (d : dummyType)
  : dummyType * option error :=
  let '(s, err) := jsonDecode_member "key" r (Key d) in
  (mkdummyType s, err).

Definition key_value_body : string :=
  "{" ++ quote ++ "key" ++ quote ++ ":" ++ quote ++ "value" ++ quote ++ "}".

(** The test's replacement for [dumpRequestOut] that always fails. *)
Definition dumpRequestOut_failing (req : Request) (body : bool)
  : bytes * option error :=
  ([], Some (ErrNew "random error")).

(** The initial value of [dumpRequestOut]. *)
Definition dumpRequestOut_wire (req : Request) (body : bool)
  : bytes * option error :=
  httputil.DumpRequestOut req body.

(** rps: stand-ins for [json.Marshal], [http.NewRequestWithContext] and
    [base64.StdEncoding.EncodeToString]. *)
Definition jsonMarshal (r : rps.parseDocumentRequest) : bytes * option error :=
  (list_byte_of_string ("{" ++ quote ++ "base64_data" ++ quote ++ ":" ++ quote
                        ++ rps.Base64Data r ++ quote ++ "}"),
   None).

Definition newRequestWithContext (ctx : Context) (method url : string)
           (body : bytes) : option Request * option error :=
  (Some (mkRequest ctx method url [] body), None).

Definition base64_alphabet : list ascii :=
  list_ascii_of_string
    "ABCDEFGHIJKLMNOPQRSTUVWXYZabcdefghijklmnopqrstuvwxyz0123456789+/".

Definition base64_digit (n : N) : ascii :=
  nth (N.to_nat n) base64_alphabet "="%char.

Fixpoint base64_EncodeToString (l : bytes) : string :=
  match l with
  | [] => ""
  | [a] =>
      let n := (Byte.to_N a * 16)%N in
      String (base64_digit (n / 64)) (String (base64_digit (n mod 64)) "==")
  | [a; b] =>
      let n := ((Byte.to_N a * 256 + Byte.to_N b) * 4)%N in
      String (base64_digit (n / 4096))
        (String (base64_digit ((n / 64) mod 64))
           (String (base64_digit (n mod 64)) "="))
  | a :: b :: c :: rest =>
      let n := (Byte.to_N a * 65536 + Byte.to_N b * 256 + Byte.to_N c)%N in
      String (base64_digit (n / 262144))
        (String (base64_digit ((n / 4096) mod 64))
           (String (base64_digit ((n / 64) mod 64))
              (String (base64_digit (n mod 64))
                 (base64_EncodeToString rest))))
  end.

(** httpclient_test.go, TestEofRetryPolicy: the predicate, and a server that
    drops every connection. *)
Definition eofCheckRetryPolicy : retryablehttp.CheckRetry :=
  fun ctx resp err =>
    match err with
    | Some e =>
        (match String.index 0 "EOF" (error_Error e) with
         | Some _ => true
         | None => false
         end, Some e)
    | None => (false, None)
    end.

Definition server_dropping
  : nat -> Request -> option Response * option error :=
  fun i rq =>
    (None, Some (ErrNew ("Get " ++ quote ++ URL rq ++ quote ++ ": EOF"))).

Definition get_request : Request :=
  mkRequest ctx_TODO "GET" "http://127.0.0.1:8080" [] [].

(** The error a call returned, rendered; the empty string for no error. *)
Definition rendered {V : Type}
           (m : M (option Response * option V * option HttpError)) : string :=
  match value_of m with
  | Some (_, _, Some h) => HttpError_Error h
  | _ => ""
  end.

(** A resume as one string, decoded from the member [first_name]. *)
Definition Resume : Type := string.

Definition first_name_body : string :=
  "{" ++ quote ++ "first_name" ++ quote ++ ":" ++ quote ++ "Morgana"
      ++ quote ++ "}".

End example.

Module scenario.

Import example.

(** [New(WithMaxRetries(3))] against a server that always answers 502. *)
Definition bad_gateway_lib : retryablehttp.Client :=
  NewClient (server_always StatusBadGateway "").

(** [New(WithMaxRetries(4), WithCheckRetryPolicy(retryIfInternalServerError))]
    against a server that fails once. *)
Definition flaky_lib : retryablehttp.Client :=
  NewClient (server_500_then_200 key_value_body).

Definition retrying_options : list httpclient.OptionExpr :=
  [ httpclient.EMaxRetries 4;
    httpclient.ECheckRetryPolicy (Some retryIfInternalServerError) ].

Definition error_body : string :=
  "{" ++ quote ++ "error" ++ quote ++ ":" ++ quote ++ "some random error"
      ++ quote ++ "}".

Definition internal_error_response : Response :=
  mkResponse StatusInternalServerError (NopCloser 1 error_body).

Definition ok_response : Response :=
  mkResponse 200 (NopCloser 1 key_value_body).

(** [New(WithRequestDumpLogger(logger, false))], then the test double put
    in the wrapper's place. *)
Definition logging_client (dumpBody : bool) : httpclient.client :=
  with_final_outcome
    (httpclient.WithRequestDumpLogger (Some (LoggerFn 1)) dumpBody
                                      httpclient.new_client)
    (Some ok_response) None.

Definition request_with_body : Request :=
  set_req_Body some_path_request (list_byte_of_string "secret").

(** [NewResumeParsingServiceClient("TOKEN", "URL")] against a server that
    answers 200 with a resume. *)
Definition resume_client : option rps.resumeParsingServiceClient :=
  rps.NewResumeParsingServiceClient
    (httpclient.New (NewClient (server_always 200 first_name_body)))
    "TOKEN" "URL" [].

Definition run_ParseDocument (r : option rps.resumeParsingServiceClient)
           (fileContents : bytes) : M (option Resume * option error) :=
  match r with
  | Some r =>
      rps.ParseDocument Resume "" io_ReadAll (jsonDecode_member "first_name")
                        dumpRequestOut_wire jsonMarshal newRequestWithContext
                        base64_EncodeToString r ctx_TODO fileContents
  | None => panic
  end.

End scenario.

(** * Further observations *)

(** The events the retry loop itself leaves in a trace. *)
Definition is_network_event (e : Event) : bool :=
  match e with
  | EvAttempt _ | EvBackoff _ _ _ => true
  | _ => false
  end.

Definition is_decode_of (id : nat) (e : Event) : bool :=
  match e with EvBodyDecode j => Nat.eqb id j | _ => false end.

Definition decodes_of (id : nat) (t : list Event) : nat :=
  List.length (filter (is_decode_of id) t).

(** Which function of httpclient's options.go an option expression calls. *)
Module httpclient_options.

Import httpclient.

Definition option_kind (e : OptionExpr) : nat :=
  match e with
  | EMaxIdleConns _ => 0
  | EMaxIdleConnsPerHost _ => 1
  | EMaxConnsPerHost _ => 2
  | EMaxRetries _ => 3
  | ERetryWaitMin _ => 4
  | ERetryWaitMax _ => 5
  | ECheckRetryPolicy _ => 6
  | ERequestDumpLogger _ _ => 7
  end%nat.

Definition same_kind (e e' : OptionExpr) : bool :=
  Nat.eqb (option_kind e) (option_kind e').

(** No two options of the list call the same function. *)
Fixpoint distinct_kinds (es : list OptionExpr) : bool :=
  match es with
  | [] => true
  | e :: es' => negb (existsb (same_kind e) es') && distinct_kinds es'
  end.

Definition apply_options (es : list OptionExpr) (c : client) : client :=
  fold_left (fun client option => option client) (map denote es) c.

(** The three options that set a connection limit. *)
Definition is_connection_limit (e : OptionExpr) : bool :=
  match e with
  | EMaxIdleConns _ | EMaxIdleConnsPerHost _ | EMaxConnsPerHost _ => true
  | _ => false
  end.

Definition without_connection_limits (es : list OptionExpr)
  : list OptionExpr :=
  filter (fun e => negb (is_connection_limit e)) es.

End httpclient_options.

(** The same for rps's options.go. *)
Module rps_options.

Import rps.

Definition option_kind (e : OptionExpr) : nat :=
  match e with
  | EMaxIdleConns _ => 0
  | EMaxIdleConnsPerHost _ => 1
  | EMaxConnsPerHost _ => 2
  | EMaxRetries _ => 3
  | ERetryWaitMin _ => 4
  | ERetryWaitMax _ => 5
  | ECheckRetryPolicy _ => 6
  | ERequestDumpLogger _ _ => 7
  end%nat.

Definition same_kind (e e' : OptionExpr) : bool :=
  Nat.eqb (option_kind e) (option_kind e').

Fixpoint distinct_kinds (es : list OptionExpr) : bool :=
  match es with
  | [] => true
  | e :: es' => negb (existsb (same_kind e) es') && distinct_kinds es'
  end.

Definition apply_options (es : list OptionExpr)
           (c : resumeParsingServiceClient) : resumeParsingServiceClient :=
  fold_left (fun client option => option client) (map denote es) c.

End rps_options.

(** Further values to run the definitions on, after the tests of rps. *)
Module cases.

(** The tests' replacements for [jsonMarshal] and [newRequestWithContext]
    that fail. *)
Definition jsonMarshal_failing (r : rps.parseDocumentRequest)
  : bytes * option error :=
  ([], Some (ErrNew "marshalling error")).

Definition newRequestWithContext_failing (ctx : Context)
           (method url : string) (body : bytes)
  : option Request * option error :=
  (None, Some (ErrNew "create request error")).

(** An rps client over a given HTTP client. *)
Definition rps_client_over (h : httpclient.client)
  : rps.resumeParsingServiceClient :=
  rps.mkresumeParsingServiceClient "TOKEN" "URL" None 0 0 0 0 0 0 None false
                                   (Some h).

(** HTTP clients whose [Do] ends with a 500, and with nothing at all. *)
Definition failing_http_client : httpclient.client :=
  with_final_outcome httpclient.new_client
                     (Some scenario.internal_error_response) None.

Definition silent_http_client : httpclient.client :=
  with_final_outcome httpclient.new_client None None.

Definition ok_http_client : httpclient.client :=
  with_final_outcome httpclient.new_client (Some scenario.ok_response) None.

Definition rps_options : list rps.OptionExpr :=
  [ rps.EMaxRetries 4; rps.ERequestDumpLogger (Some (LoggerFn 1)) true ].

Definition run_ParseDocument_over (h : httpclient.client)
  : M (option example.Resume * option error) :=
  rps.ParseDocument example.Resume "" io_ReadAll
                    (example.jsonDecode_member "first_name")
                    example.dumpRequestOut_wire example.jsonMarshal
                    example.newRequestWithContext
                    example.base64_EncodeToString
                    (rps_client_over h) ctx_TODO [].

End cases.

(** * Properties *)

(** ** The retry loop *)

Section RetryLoop.

Import retryablehttp.

Variable c : Client.
Variable req : Request.

Lemma attempt_loop_eq (remain i : nat) :
  attempt_loop c req remain i =
  if negb (fst (decision c req i)) then (Some (outcome c req i), [EvAttempt i])
  else match remain with
       | O => (Some (None,
                     Some (ErrGivingUp (Method req) (URL req) (S i)
                                       (snd (outcome c req i)))),
               [EvAttempt i])
       | S remain' =>
           (value_of (attempt_loop c req remain' (S i)),
            EvAttempt i :: EvBackoff (RetryWaitMin c) (RetryWaitMax c) i
              :: trace_of (attempt_loop c req remain' (S i)))
       end.
Proof.
  unfold outcome, decision.
  destruct remain as [|remain']; cbn [attempt_loop];
    destruct (HTTPClient c i req) as [resp doErr]; cbn [fst snd];
    destruct (Client_CheckRetry c (req_ctx req) resp doErr) as [[|] checkErr];
    cbn; try reflexivity.
  destruct (attempt_loop c req remain' (S i)) as [[v|] t]; reflexivity.
Qed.

Lemma attempts_made_cons_attempt (i : nat) (t : list Event) :
  attempts_made (EvAttempt i :: t) = S (attempts_made t).
Proof. reflexivity. Qed.

Lemma attempts_made_cons_backoff (a b : Z) (i : nat) (t : list Event) :
  attempts_made (EvBackoff a b i :: t) = attempts_made t.
Proof. reflexivity. Qed.

(** The loop always returns, and never makes more attempts than the
    retries it was given allow. *)
Lemma attempt_loop_returns (remain i : nat) :
  exists r, value_of (attempt_loop c req remain i) = Some r.
Proof.
  revert i; induction remain as [|remain IH]; intro i;
    rewrite attempt_loop_eq; destruct (negb (fst (decision c req i)));
    cbn; eauto.
Qed.

Lemma attempt_loop_bound (remain i : nat) :
  (1 <= attempts_made (trace_of (attempt_loop c req remain i)) <= S remain)%nat.
Proof.
  revert i; induction remain as [|remain IH]; intro i;
    rewrite attempt_loop_eq; destruct (negb (fst (decision c req i)));
    cbn [trace_of snd]; try (cbn; lia).
  rewrite attempts_made_cons_attempt, attempts_made_cons_backoff.
  specialize (IH (S i)). lia.
Qed.

(** [k] answers "retry" followed by an answer "do not retry": the loop
    stops after [k + 1] attempts with the outcome c req of the last one. *)
Lemma attempt_loop_stops (k : nat) :
  forall remain i,
    (k <= remain)%nat ->
    (forall j, (j < k)%nat -> fst (decision c req (i + j)) = true) ->
    fst (decision c req (i + k)) = false ->
    value_of (attempt_loop c req remain i) = Some (outcome c req (i + k)) /\
    attempts_made (trace_of (attempt_loop c req remain i)) = S k.
Proof.
  induction k as [|k IH]; intros remain i Hle Hretry Hstop.
  - rewrite Nat.add_0_r in Hstop. rewrite attempt_loop_eq, Hstop.
    cbn. rewrite Nat.add_0_r. split; reflexivity.
  - rewrite attempt_loop_eq.
    assert (H0 : fst (decision c req i) = true).
    { specialize (Hretry 0%nat). rewrite Nat.add_0_r in Hretry.
      apply Hretry. lia. }
    rewrite H0. cbn [negb].
    destruct remain as [|remain']; [lia|].
    cbn [value_of trace_of fst snd].
    rewrite attempts_made_cons_attempt, attempts_made_cons_backoff.
    destruct (IH remain' (S i)) as [Hv Ht].
    + lia.
    + intros j Hj. replace (S i + j)%nat with (i + S j)%nat by lia.
      apply Hretry. lia.
    + replace (S i + k)%nat with (i + S k)%nat by lia. exact Hstop.
    + replace (S i + k)%nat with (i + S k)%nat in Hv by lia.
      unfold value_of, trace_of in *. rewrite Hv, Ht. split; reflexivity.
Qed.

(** Every answer is "retry": the loop gives up when the retries are
    used up. *)
Lemma attempt_loop_exhausted (remain : nat) :
  forall i,
    (forall j, (j <= remain)%nat -> fst (decision c req (i + j)) = true) ->
    value_of (attempt_loop c req remain i) =
      Some (None, Some (ErrGivingUp (Method req) (URL req) (S (i + remain))
                                    (snd (outcome c req (i + remain))))) /\
    attempts_made (trace_of (attempt_loop c req remain i)) = S remain.
Proof.
  induction remain as [|remain IH]; intros i Hretry;
    rewrite attempt_loop_eq;
    (assert (H0 : fst (decision c req i) = true)
      by (specialize (Hretry 0%nat); rewrite Nat.add_0_r in Hretry;
          apply Hretry; lia));
    rewrite H0; cbn [negb].
  - rewrite Nat.add_0_r. split; reflexivity.
  - cbn [value_of trace_of fst snd].
    rewrite attempts_made_cons_attempt, attempts_made_cons_backoff.
    destruct (IH (S i)) as [Hv Ht].
    + intros j Hj. replace (S i + j)%nat with (i + S j)%nat by lia.
      apply Hretry. lia.
    + replace (S i + remain)%nat with (i + S remain)%nat in Hv by lia.
      unfold value_of, trace_of in *. rewrite Hv, Ht. split; reflexivity.
Qed.

End RetryLoop.

(** ** Construction *)

Section Construction.

Import httpclient.

Lemma New_eq (NewClient : retryablehttp.Client) (options : list Option) :
  New NewClient options =
  Some (set_retryableHttpClient (newClient options)
          (retryableHttpClientWrapper
             (retryablehttp.mkClient
                (retryablehttp.HTTPClient NewClient)
                (maxRetries (newClient options))
                (retryWaitMin (newClient options))
                (retryWaitMax (newClient options))
                (policy_or_default (checkRetryPolicy (newClient options)))))).
Proof.
  unfold New, patchRetryableClient. cbn.
  destruct (checkRetryPolicy (newClient options)); reflexivity.
Qed.

Lemma options_keep_policy (es : list OptionExpr) :
  forall c0,
    existsb is_CheckRetryPolicy es = false ->
    checkRetryPolicy
      (fold_left (fun client option => option client) (map denote es) c0)
    = checkRetryPolicy c0.
Proof.
  induction es as [|e es IH]; intros c0 H; [reflexivity|].
  cbn [existsb] in H. apply orb_false_iff in H as [He Hes].
  cbn [map fold_left]. rewrite (IH _ Hes).
  destruct e; cbn in He; try discriminate; reflexivity.
Qed.

Lemma last_policy_wins (es es' : list OptionExpr)
      (p : option retryablehttp.CheckRetry) :
  existsb is_CheckRetryPolicy es' = false ->
  checkRetryPolicy (newClient (map denote (es ++ ECheckRetryPolicy p :: es')))
  = p.
Proof.
  intro H. unfold newClient.
  rewrite map_app, fold_left_app. cbn [map fold_left].
  rewrite (options_keep_policy _ _ H). reflexivity.
Qed.

Lemma options_keep_maxRetries_last (es : list OptionExpr) (n : Z) :
  maxRetries (newClient (map denote (es ++ [EMaxRetries n]))) = n.
Proof.
  unfold newClient. rewrite map_app, fold_left_app. reflexivity.
Qed.

End Construction.

(** ** C1 and C4: which predicate decides, and how many attempts follow *)

Section Attempts.

Import httpclient.

Variable NewClient : retryablehttp.Client.

Lemma run_Do_New (options : list Option) (req : Request) :
  run_Do (New NewClient options) req =
  retryablehttp.attempt_loop
    (retryablehttp.mkClient
       (retryablehttp.HTTPClient NewClient)
       (maxRetries (newClient options))
       (retryWaitMin (newClient options))
       (retryWaitMax (newClient options))
       (policy_or_default (checkRetryPolicy (newClient options))))
    req (Z.to_nat (maxRetries (newClient options))) 0.
Proof. rewrite New_eq. reflexivity. Qed.

Lemma run_Do_default (options : list Option) (req : Request) :
  checkRetryPolicy (newClient options) = None ->
  run_Do (New NewClient options) req =
  (Some (retryablehttp.HTTPClient NewClient 0%nat req), [EvAttempt 0]).
Proof.
  intro H. rewrite run_Do_New, H, attempt_loop_eq.
  unfold decision, outcome. cbn.
  destruct (retryablehttp.HTTPClient NewClient 0%nat req); reflexivity.
Qed.

(** C1.  A client built from options none of which is
    [WithCheckRetryPolicy] carries [doNotRetryPolicy] into its retry
    loop; that predicate answers [(false, nil)] to everything; so
    whatever the first attempt yields (a status of 400 or more and a
    transport error included) is what [Do] returns, after exactly one
    attempt.  An option [WithCheckRetryPolicy p] with a non-nil [p] that
    no later such option overrides puts [p] in the default's place. *)
Theorem default_policy_is_do_not_retry (es : list OptionExpr) :
  existsb is_CheckRetryPolicy es = false ->
  installed_CheckRetry (New NewClient (map denote es))
    = Some doNotRetryPolicy /\
  (forall ctx resp err, doNotRetryPolicy ctx resp err = (false, None)) /\
  (forall req,
      run_Do (New NewClient (map denote es)) req =
        (Some (retryablehttp.HTTPClient NewClient 0%nat req), [EvAttempt 0])
      /\ attempts_made
           (trace_of (run_Do (New NewClient (map denote es)) req)) = 1%nat)
  /\
  (forall es0 es' p,
      existsb is_CheckRetryPolicy es' = false ->
      installed_CheckRetry
        (New NewClient
             (map denote (es0 ++ ECheckRetryPolicy (Some p) :: es')))
      = Some p).
Proof.
  intro Hno.
  assert (Hnil : checkRetryPolicy (newClient (map denote es)) = None)
    by (unfold newClient; rewrite (options_keep_policy _ _ Hno); reflexivity).
  split; [|split; [|split]].
  - rewrite New_eq. cbn. rewrite Hnil. reflexivity.
  - reflexivity.
  - intro req. rewrite (run_Do_default _ _ Hnil). split; reflexivity.
  - intros es0 es' p H. rewrite New_eq. cbn.
    rewrite (last_policy_wins _ _ _ H). reflexivity.
Qed.

(** C4.  With a custom predicate [p] that answers "retry" after each of
    the first [N - 1] attempts and "do not retry" after the [N]-th, where
    [N] is at most [maxRetries + 1], [Do] makes exactly [N] attempts.
    With [maxRetries = 0] it makes exactly one whatever [p] answers, and
    a first answer "do not retry" ends the loop at once with the first
    attempt's response, whatever its status code. *)
Theorem custom_policy_attempt_count (es : list OptionExpr)
        (p : retryablehttp.CheckRetry) (req : Request) :
  checkRetryPolicy (newClient (map denote es)) = Some p ->
  (forall N : nat,
      (1 <= N <= Z.to_nat (maxRetries (newClient (map denote es))) + 1)%nat ->
      (forall k, (1 <= k < N)%nat -> fst (answer NewClient p req k) = true) ->
      fst (answer NewClient p req N) = false ->
      attempts_made
        (trace_of (run_Do (New NewClient (map denote es)) req)) = N) /\
  (maxRetries (newClient (map denote es)) = 0 ->
   attempts_made
     (trace_of (run_Do (New NewClient (map denote es)) req)) = 1%nat) /\
  (fst (answer NewClient p req 1) = false ->
   attempts_made
     (trace_of (run_Do (New NewClient (map denote es)) req)) = 1%nat /\
   exists err,
     value_of (run_Do (New NewClient (map denote es)) req) =
       Some (fst (retryablehttp.HTTPClient NewClient 0%nat req), err)).
Proof.
  intro Hp. rewrite run_Do_New, Hp. cbn [policy_or_default].
  set (rhc := retryablehttp.mkClient _ _ _ _ _).
  assert (Hdec : forall i, decision rhc req i = answer NewClient p req (S i)).
  { intro i. unfold decision, answer. cbn.
    rewrite Nat.sub_0_r. reflexivity. }
  split; [|split].
  - intros N [H1 HN] Hretry Hstop.
    destruct N as [|k]; [lia|].
    destruct (attempt_loop_stops rhc req k
                (Z.to_nat (maxRetries (newClient (map denote es)))) 0%nat)
      as [_ Hn].
    + lia.
    + intros j Hj. cbn [Nat.add]. rewrite Hdec. apply Hretry. lia.
    + cbn [Nat.add]. rewrite Hdec. exact Hstop.
    + exact Hn.
  - intro H0. rewrite H0.
    pose proof (attempt_loop_bound rhc req (Z.to_nat 0) 0%nat) as Hb.
    cbn in Hb |- *. lia.
  - intro Hstop.
    destruct (attempt_loop_stops rhc req 0%nat
                (Z.to_nat (maxRetries (newClient (map denote es)))) 0%nat)
      as [Hv Hn].
    + lia.
    + intros j Hj. lia.
    + cbn [Nat.add]. rewrite Hdec. exact Hstop.
    + split; [exact Hn|]. eexists. rewrite Hv. reflexivity.
Qed.

End Attempts.

(** ** C7: what an option writes *)



Section ClientFields.

Import httpclient httpclient_fields.

Lemma client_frame (e : OptionExpr) (g : field) (c : client) :
  assigns e g = false -> same_at g c (denote e c).
Proof. destruct e, g; cbn; intro H; try discriminate; reflexivity. Qed.

Lemma client_written (e : OptionExpr) (g : field) :
  assigns e g = true -> exists c, ~ same_at g c (denote e c).
Proof.
  destruct e as [n|n|n|n|n|n|p|l b], g; cbn; intro H; try discriminate.
  - exists (set_maxIdleConns new_client (n + 1)). cbn. lia.
  - exists (set_maxIdleConnsPerHost new_client (n + 1)). cbn. lia.
  - exists (set_maxConnsPerHost new_client (n + 1)). cbn. lia.
  - exists (set_maxRetries new_client (n + 1)). cbn. lia.
  - exists (set_retryWaitMin new_client (n + 1)). cbn. lia.
  - exists (set_retryWaitMax new_client (n + 1)). cbn. lia.
  - destruct p as [p|].
    + exists new_client. cbn. discriminate.
    + exists (set_checkRetryPolicy new_client (Some doNotRetryPolicy)).
      cbn. discriminate.
  - destruct l as [l|].
    + exists new_client. cbn. discriminate.
    + exists (set_requestDumpLogger new_client (Some (LoggerFn 0))).
      cbn. discriminate.
  - exists (set_dumpRequestBody new_client (negb b)). cbn.
    destruct b; discriminate.
Qed.

Lemma client_assigned_count (e : OptionExpr) :
  List.length (filter (assigns e) all_fields) =
  if is_RequestDumpLogger e then 2%nat else 1%nat.
Proof. destruct e; reflexivity. Qed.

Lemma client_dump_logger_option_writes_two (l : option Logger) (b : bool) :
  ~ mutates_one_field (WithRequestDumpLogger l b).
Proof.
  intros [f Hf].
  assert (Hb := Hf (set_dumpRequestBody new_client (negb b))
                   f_dumpRequestBody).
  assert (Hl := Hf (set_requestDumpLogger new_client
                      (match l with Some _ => None
                                  | None => Some (LoggerFn 0) end))
                   f_requestDumpLogger).
  destruct f;
    try (specialize (Hb ltac:(discriminate)); cbn in Hb;
         destruct b; discriminate).
  specialize (Hl ltac:(discriminate)); cbn in Hl.
  destruct l; discriminate.
Qed.

Lemma client_other_options_write_one (e : OptionExpr) :
  is_RequestDumpLogger e = false -> mutates_one_field (denote e).
Proof.
  destruct e; cbn; intro H; try discriminate;
    [ exists f_maxIdleConns | exists f_maxIdleConnsPerHost
    | exists f_maxConnsPerHost | exists f_maxRetries
    | exists f_retryWaitMin | exists f_retryWaitMax
    | exists f_checkRetryPolicy ];
    intros c g Hg; destruct g; try reflexivity; congruence.
Qed.

End ClientFields.

Section RpsFields.

Import rps rps_fields.

Lemma rps_frame (e : OptionExpr) (g : field) (c : resumeParsingServiceClient) :
  assigns e g = false -> same_at g c (denote e c).
Proof. destruct e, g; cbn; intro H; try discriminate; reflexivity. Qed.

Lemma rps_written (e : OptionExpr) (g : field) :
  assigns e g = true -> exists c, ~ same_at g c (denote e c).
Proof.
  destruct e as [n|n|n|n|d|d|p|l b], g; cbn; intro H; try discriminate.
  - exists (WithMaxIdleConns (n + 1) new_resumeParsingServiceClient).
    cbn. lia.
  - exists (WithMaxIdleConnsPerHost (n + 1) new_resumeParsingServiceClient).
    cbn. lia.
  - exists (WithMaxConnsPerHost (n + 1) new_resumeParsingServiceClient).
    cbn. lia.
  - exists (WithMaxRetries (n + 1) new_resumeParsingServiceClient).
    cbn. lia.
  - exists (WithRetryWaitMin (d + 1) new_resumeParsingServiceClient).
    cbn. lia.
  - exists (WithRetryWaitMax (d + 1) new_resumeParsingServiceClient).
    cbn. lia.
  - destruct p as [p|].
    + exists new_resumeParsingServiceClient. cbn. discriminate.
    + exists (WithCheckRetryPolicy (Some httpclient.doNotRetryPolicy)
                                   new_resumeParsingServiceClient).
      cbn. discriminate.
  - destruct l as [l|].
    + exists new_resumeParsingServiceClient. cbn. discriminate.
    + exists (WithRequestDumpLogger (Some (LoggerFn 0)) b
                                    new_resumeParsingServiceClient).
      cbn. discriminate.
  - exists (WithRequestDumpLogger l (negb b) new_resumeParsingServiceClient).
    cbn. destruct b; discriminate.
Qed.

Lemma rps_assigned_count (e : OptionExpr) :
  List.length (filter (assigns e) all_fields) =
  if is_RequestDumpLogger e then 2%nat else 1%nat.
Proof. destruct e; reflexivity. Qed.

Lemma rps_dump_logger_option_writes_two (l : option Logger) (b : bool) :
  ~ mutates_one_field (WithRequestDumpLogger l b).
Proof.
  intros [f Hf].
  assert (Hb := Hf (WithRequestDumpLogger l (negb b)
                      new_resumeParsingServiceClient)
                   f_dumpRequestBody).
  assert (Hl := Hf (WithRequestDumpLogger
                      (match l with Some _ => None
                                  | None => Some (LoggerFn 0) end) b
                      new_resumeParsingServiceClient)
                   f_requestDumpLogger).
  destruct f;
    try (specialize (Hb ltac:(discriminate)); cbn in Hb;
         destruct b; discriminate).
  specialize (Hl ltac:(discriminate)); cbn in Hl.
  destruct l; discriminate.
Qed.

Lemma rps_other_options_write_one (e : OptionExpr) :
  is_RequestDumpLogger e = false -> mutates_one_field (denote e).
Proof.
  destruct e; cbn; intro H; try discriminate;
    [ exists f_maxIdleConns | exists f_maxIdleConnsPerHost
    | exists f_maxConnsPerHost | exists f_maxRetries
    | exists f_retryWaitMin | exists f_retryWaitMax
    | exists f_checkRetryPolicy ];
    intros c g Hg; destruct g; try reflexivity; congruence.
Qed.

End RpsFields.

(** C7, as the code has it.  Every option of either package leaves alone
    each field its function body does not assign and does write each field
    it assigns; that is one field for every option except
    [WithRequestDumpLogger], which assigns two ([requestDumpLogger] and
    [dumpRequestBody]) and so is the one option that does not keep to a
    single field. *)
Theorem options_write_only_their_fields
        (e : httpclient.OptionExpr) (e' : rps.OptionExpr) :
  ((forall g,
       if httpclient_fields.assigns e g
       then exists c,
           ~ httpclient_fields.same_at g c (httpclient.denote e c)
       else forall c,
           httpclient_fields.same_at g c (httpclient.denote e c)) /\
   List.length (filter (httpclient_fields.assigns e)
                       httpclient_fields.all_fields)
     = (if httpclient.is_RequestDumpLogger e then 2%nat else 1%nat) /\
   (if httpclient.is_RequestDumpLogger e
    then ~ httpclient_fields.mutates_one_field (httpclient.denote e)
    else httpclient_fields.mutates_one_field (httpclient.denote e)))
  /\
  ((forall g,
       if rps_fields.assigns e' g
       then exists c, ~ rps_fields.same_at g c (rps.denote e' c)
       else forall c, rps_fields.same_at g c (rps.denote e' c)) /\
   List.length (filter (rps_fields.assigns e') rps_fields.all_fields)
     = (if rps.is_RequestDumpLogger e' then 2%nat else 1%nat) /\
   (if rps.is_RequestDumpLogger e'
    then ~ rps_fields.mutates_one_field (rps.denote e')
    else rps_fields.mutates_one_field (rps.denote e'))).
Proof.
  split; (split; [|split]).
  - intro g. destruct (httpclient_fields.assigns e g) eqn:Ha.
    + apply client_written, Ha.
    + intro c. apply client_frame, Ha.
  - apply client_assigned_count.
  - destruct (httpclient.is_RequestDumpLogger e) eqn:Hd.
    + destruct e; try discriminate.
      apply client_dump_logger_option_writes_two.
    + apply client_other_options_write_one, Hd.
  - intro g. destruct (rps_fields.assigns e' g) eqn:Ha.
    + apply rps_written, Ha.
    + intro c. apply rps_frame, Ha.
  - apply rps_assigned_count.
  - destruct (rps.is_RequestDumpLogger e') eqn:Hd.
    + destruct e'; try discriminate.
      apply rps_dump_logger_option_writes_two.
    + apply rps_other_options_write_one, Hd.
Qed.

(** C7 as stated fails: [WithRequestDumpLogger] does not keep its writes
    to one field of the client under construction. *)
Lemma dump_logger_option_mutates_two_fields :
  ~ httpclient_fields.mutates_one_field
      (httpclient.WithRequestDumpLogger (Some (LoggerFn 0)) true).
Proof. apply client_dump_logger_option_writes_two. Qed.

(** ** Computations and their traces *)

Lemma bind_value {A B} (m : M A) (f : A -> M B) :
  value_of (bind m f) =
  match value_of m with
  | Some a => value_of (f a)
  | None => None
  end.
Proof.
  destruct m as [[a|] t]; cbn; [|reflexivity].
  destruct (f a); reflexivity.
Qed.

Lemma bind_trace {A B} (m : M A) (f : A -> M B) :
  trace_of (bind m f) =
  (trace_of m ++ match value_of m with
                 | Some a => trace_of (f a)
                 | None => []
                 end)%list.
Proof.
  destruct m as [[a|] t]; cbn; [|rewrite app_nil_r; reflexivity].
  destruct (f a); reflexivity.
Qed.

Lemma dump_events_app (t t' : list Event) :
  dump_events (t ++ t') = (dump_events t ++ dump_events t')%list.
Proof. apply filter_app. Qed.

Lemma attempt_loop_no_dump_events (c : retryablehttp.Client) (req : Request)
      (remain : nat) :
  forall i,
    dump_events (trace_of (retryablehttp.attempt_loop c req remain i)) = [].
Proof.
  induction remain as [|remain IH]; intro i; rewrite attempt_loop_eq;
    destruct (negb (fst (decision c req i))); cbn; auto.
Qed.

(** ** C2, C3, C10: classifying the final outcome *)

Section Resolver.

Import httpclient.

Variable Value : Type.
Variable ioReadAll : ReadCloser -> bytes * option error.
Variable jsonDecode : ReadCloser -> Value -> Value * option error.

Lemma handleUnsuccessfulResponse_ge_400 (url : string) (r : Response)
      (receivedError : option error) :
  400 <= resp_StatusCode r ->
  handleUnsuccessfulResponse ioReadAll url (Some r) receivedError =
  (Some (Some (unsuccessful_response_error ioReadAll url r receivedError)),
   [EvBodyRead (rc_id (resp_Body r)); EvBodyClose (rc_id (resp_Body r))]).
Proof.
  intro H. unfold handleUnsuccessfulResponse, unsuccessful_response_error.
  apply Z.leb_le in H. unfold StatusBadRequest. rewrite H.
  destruct (ioReadAll (resp_Body r)) as [respErr [e|]]; reflexivity.
Qed.

Lemma handleUnsuccessfulResponse_lt_400 (url : string) (r : Response)
      (receivedError : option error) :
  resp_StatusCode r < 400 ->
  handleUnsuccessfulResponse ioReadAll url (Some r) receivedError =
  (Some (match receivedError with
         | Some e => Some (mkHttpError url 0 "" (Some e))
         | None => None
         end), []).
Proof.
  intro H. unfold handleUnsuccessfulResponse.
  apply Z.leb_gt in H. unfold StatusBadRequest. rewrite H.
  destruct receivedError; reflexivity.
Qed.

(** C2.  For a final outcome whose response has a status of 400 or more
    the resolver returns a structured error with that status, after
    reading the body and closing it once.  When the read succeeds the
    error's body is exactly the bytes read and its cause is the error
    received with the response (nil or not); when the read fails the
    body is empty and the cause is the read failure wrapped as
    "parsing response". *)
Theorem unsuccessful_response_is_reported (c : client) (req : Request)
        (v : option Value) (r : Response) (receivedError : option error) :
  400 <= resp_StatusCode r ->
  exists h,
    handleUnsuccessfulResponse ioReadAll (URL req) (Some r) receivedError
      = (Some (Some h),
         [EvBodyRead (rc_id (resp_Body r));
          EvBodyClose (rc_id (resp_Body r))]) /\
    value_of (client_do Value ioReadAll jsonDecode
                        (with_final_outcome c (Some r) receivedError) req v)
      = Some (Some r, v, Some h) /\
    Url h = URL req /\
    StatusCode h = resp_StatusCode r /\
    (forall respErr,
        ioReadAll (resp_Body r) = (respErr, None) ->
        Body h = string_of_list_byte respErr /\
        list_byte_of_string (Body h) = respErr /\
        Err h = receivedError) /\
    (forall respErr e,
        ioReadAll (resp_Body r) = (respErr, Some e) ->
        Body h = "" /\
        Err h = Some (ErrWrap e "parsing response")).
Proof.
  intro H. exists (unsuccessful_response_error ioReadAll (URL req) r receivedError).
  split; [apply handleUnsuccessfulResponse_ge_400, H|].
  split.
  { unfold client_do, with_final_outcome. cbn [retryableHttpClient
      set_retryableHttpClient Do].
    rewrite bind_value. cbn [value_of ret fst].
    rewrite bind_value, handleUnsuccessfulResponse_ge_400 by exact H.
    reflexivity. }
  unfold unsuccessful_response_error.
  destruct (ioReadAll (resp_Body r)) as [bs [e|]]; cbn [Url StatusCode Body Err];
    (split; [reflexivity|]); (split; [reflexivity|]); split.
  - intros respErr Heq. discriminate Heq.
  - intros respErr e' Heq. inversion Heq; subst. split; reflexivity.
  - intros respErr Heq. inversion Heq; subst.
    split; [reflexivity|]. split; [|reflexivity].
    apply list_byte_of_string_of_list_byte.
  - intros respErr e' Heq. discriminate Heq.
Qed.

Lemma decodeResponse_eq (url : string) (r : Response) (d : Value) :
  decodeResponse Value jsonDecode url (Some r) (Some d) =
  (Some (Some (fst (jsonDecode (resp_Body r) d)),
         match snd (jsonDecode (resp_Body r) d) with
         | Some e =>
             Some (mkHttpError url (resp_StatusCode r) ""
                               (Some (ErrWrap e "decoding response")))
         | None => None
         end),
   [EvBodyDecode (rc_id (resp_Body r)); EvBodyClose (rc_id (resp_Body r))]).
Proof.
  unfold decodeResponse.
  destruct (jsonDecode (resp_Body r) d) as [d' [e|]]; reflexivity.
Qed.

(** C3.  For a final outcome that is a response below 400 with no error,
    and a decode target, the body is handed as it is to [jsonDecode]
    together with the target and is then closed, once; the target ends
    up holding what [jsonDecode] made of it.  When the decoder fails the
    result is a structured error with the response's status, an empty
    body and the decoder's error wrapped as "decoding response"; when it
    succeeds there is no error. *)
Theorem successful_response_is_decoded (c : client) (req : Request)
        (r : Response) (d : Value) :
  resp_StatusCode r < 400 ->
  client_do Value ioReadAll jsonDecode
            (with_final_outcome c (Some r) None) req (Some d) =
  (Some (Some r,
         Some (fst (jsonDecode (resp_Body r) d)),
         match snd (jsonDecode (resp_Body r) d) with
         | Some e =>
             Some (mkHttpError (URL req) (resp_StatusCode r) ""
                               (Some (ErrWrap e "decoding response")))
         | None => None
         end),
   [EvBodyDecode (rc_id (resp_Body r)); EvBodyClose (rc_id (resp_Body r))]).
Proof.
  intro H. unfold client_do, with_final_outcome.
  cbn [retryableHttpClient set_retryableHttpClient Do].
  cbn [bind ret]. rewrite (handleUnsuccessfulResponse_lt_400 _ _ _ H).
  cbn [bind]. rewrite decodeResponse_eq.
  destruct (snd (jsonDecode (resp_Body r) d)); reflexivity.
Qed.

(** C10.  When [Do] returns a response below 400 together with an error,
    the resolver returns a structured error whose cause is that error,
    whose status is the absent-status zero and whose body is empty, and
    nothing has read or closed the response's body by then. *)
Theorem error_with_successful_response (c : client) (req : Request)
        (v : option Value) (r : Response) (e : error) :
  resp_StatusCode r < 400 ->
  handleUnsuccessfulResponse ioReadAll (URL req) (Some r) (Some e)
    = (Some (Some (mkHttpError (URL req) 0 "" (Some e))), []) /\
  client_do Value ioReadAll jsonDecode
            (with_final_outcome c (Some r) (Some e)) req v
    = (Some (Some r, v, Some (mkHttpError (URL req) 0 "" (Some e))), []) /\
  reads_of (rc_id (resp_Body r))
           (trace_of (client_do Value ioReadAll jsonDecode
                        (with_final_outcome c (Some r) (Some e)) req v))
    = 0%nat /\
  closes_of (rc_id (resp_Body r))
            (trace_of (client_do Value ioReadAll jsonDecode
                         (with_final_outcome c (Some r) (Some e)) req v))
    = 0%nat.
Proof.
  intro H.
  assert (Hdo : client_do Value ioReadAll jsonDecode
                  (with_final_outcome c (Some r) (Some e)) req v
                = (Some (Some r, v,
                         Some (mkHttpError (URL req) 0 "" (Some e))), [])).
  { unfold client_do, with_final_outcome.
    cbn [retryableHttpClient set_retryableHttpClient Do].
    cbn [bind ret]. rewrite (handleUnsuccessfulResponse_lt_400 _ _ _ H).
    reflexivity. }
  split; [exact (handleUnsuccessfulResponse_lt_400 (URL req) r (Some e) H)|].
  rewrite Hdo. repeat split.
Qed.

End Resolver.

(** ** C8 and C9: the diagnostic dump *)

Lemma logger_calls_dump_events (t : list Event) :
  logger_calls (dump_events t) = logger_calls t.
Proof.
  induction t as [|e t IH]; [reflexivity|].
  destruct e; cbn; fold (dump_events t); rewrite ?IH; reflexivity.
Qed.

Lemma serializations_dump_events (t : list Event) :
  serializations (dump_events t) = serializations t.
Proof.
  induction t as [|e t IH]; [reflexivity|].
  destruct e; cbn; fold (dump_events t); rewrite ?IH; reflexivity.
Qed.

Section Diagnostics.

Import httpclient.

Variable Value : Type.
Variable ioReadAll : ReadCloser -> bytes * option error.
Variable jsonDecode : ReadCloser -> Value -> Value * option error.
Variable dumpRequestOut : Request -> bool -> bytes * option error.

Lemma logRequestDump_eq (c : client) (req : Request) :
  logRequestDump dumpRequestOut c req =
  (Some tt,
   match requestDumpLogger c with
   | Some logger =>
       EvDumpRequestOut (dumpRequestBody c)
       :: match snd (dumpRequestOut req (dumpRequestBody c)) with
          | None =>
              [EvLoggerCall logger
                            (fst (dumpRequestOut req (dumpRequestBody c)))]
          | Some _ => []
          end
   | None => []
   end).
Proof.
  unfold logRequestDump. destruct (requestDumpLogger c); [|reflexivity].
  destruct (dumpRequestOut req (dumpRequestBody c)) as [dump [e|]];
    reflexivity.
Qed.

Lemma sendRequest_eq (c : client) (req : Request) (v : option Value) :
  sendRequest Value ioReadAll jsonDecode dumpRequestOut c req v =
  (value_of (client_do Value ioReadAll jsonDecode c req v),
   (trace_of (logRequestDump dumpRequestOut c req)
    ++ trace_of (client_do Value ioReadAll jsonDecode c req v))%list).
Proof.
  unfold sendRequest. rewrite logRequestDump_eq.
  cbn [bind trace_of snd].
  destruct (client_do Value ioReadAll jsonDecode c req v)
    as [[[[resp v'] [e|]]|] t]; cbn; rewrite ?app_nil_r; reflexivity.
Qed.

Lemma Do_no_dump_events (r : retryableHttpClientIface) (req : Request) :
  dump_events (trace_of (Do r req)) = [].
Proof.
  destruct r; cbn; try reflexivity.
  apply attempt_loop_no_dump_events.
Qed.

Lemma client_do_no_dump_events (c : client) (req : Request)
      (v : option Value) :
  dump_events (trace_of (client_do Value ioReadAll jsonDecode c req v)) = [].
Proof.
  unfold client_do. rewrite bind_trace, dump_events_app, Do_no_dump_events.
  destruct (value_of (Do (retryableHttpClient c) req)) as [[resp err]|];
    [|reflexivity].
  cbn [app]. rewrite bind_trace, dump_events_app.
  assert (Hh : dump_events
                 (trace_of (handleUnsuccessfulResponse ioReadAll (URL req)
                                                       resp err)) = []).
  { unfold handleUnsuccessfulResponse.
    destruct resp as [r|]; [|destruct err; reflexivity].
    destruct (StatusBadRequest <=? resp_StatusCode r);
      [|destruct err; reflexivity].
    cbn. destruct (ioReadAll (resp_Body r)) as [bs [e|]]; reflexivity. }
  rewrite Hh. cbn [app].
  destruct (value_of (handleUnsuccessfulResponse ioReadAll (URL req)
                                                 resp err))
    as [[h|]|]; try reflexivity.
  rewrite bind_trace, dump_events_app.
  assert (Hd : dump_events
                 (trace_of (decodeResponse Value jsonDecode (URL req)
                                           resp v)) = []).
  { unfold decodeResponse.
    destruct v as [d|]; [|reflexivity].
    destruct resp as [r|]; [|reflexivity].
    cbn. destruct (jsonDecode (resp_Body r) d) as [d' [e|]]; reflexivity. }
  rewrite Hd. cbn [app].
  destruct (value_of (decodeResponse Value jsonDecode (URL req) resp v))
    as [[v' [e|]]|]; reflexivity.
Qed.

Lemma sendRequest_dump_events (c : client) (req : Request)
      (v : option Value) :
  dump_events (trace_of (sendRequest Value ioReadAll jsonDecode
                                     dumpRequestOut c req v)) =
  trace_of (logRequestDump dumpRequestOut c req).
Proof.
  rewrite sendRequest_eq. cbn [trace_of snd].
  rewrite dump_events_app, client_do_no_dump_events, app_nil_r.
  rewrite logRequestDump_eq. cbn [snd].
  destruct (requestDumpLogger c); [|reflexivity].
  destruct (snd (dumpRequestOut req (dumpRequestBody c))); reflexivity.
Qed.

Lemma sendRequest_logger_calls (c : client) (req : Request)
      (v : option Value) :
  logger_calls (trace_of (sendRequest Value ioReadAll jsonDecode
                                      dumpRequestOut c req v)) =
  logger_calls (trace_of (logRequestDump dumpRequestOut c req)).
Proof.
  rewrite <- (logger_calls_dump_events (trace_of (sendRequest _ _ _ _ _ _ _))).
  rewrite sendRequest_dump_events. reflexivity.
Qed.

Lemma sendRequest_serializations (c : client) (req : Request)
      (v : option Value) :
  serializations (trace_of (sendRequest Value ioReadAll jsonDecode
                                        dumpRequestOut c req v)) =
  serializations (trace_of (logRequestDump dumpRequestOut c req)).
Proof.
  rewrite <- (serializations_dump_events
                (trace_of (sendRequest _ _ _ _ _ _ _))).
  rewrite sendRequest_dump_events. reflexivity.
Qed.

(** C8.  With a dump logger configured and a serialization that fails,
    the failure goes no further: the logger is not called, and the call
    returns what it returns for the same client without the logger, its
    trace being that of the logger-free call after the one attempt to
    serialize.  With no dump logger, nothing is serialized and nothing
    is called: the call is [client_do] and nothing more. *)
Theorem dump_failure_is_swallowed (c : client) (req : Request)
        (v : option Value) :
  (forall logger e,
      requestDumpLogger c = Some logger ->
      snd (dumpRequestOut req (dumpRequestBody c)) = Some e ->
      logger_calls (trace_of (sendRequest Value ioReadAll jsonDecode
                                          dumpRequestOut c req v)) = [] /\
      value_of (sendRequest Value ioReadAll jsonDecode dumpRequestOut
                            c req v)
      = value_of (sendRequest Value ioReadAll jsonDecode dumpRequestOut
                              (without_dump_logger c) req v) /\
      trace_of (sendRequest Value ioReadAll jsonDecode dumpRequestOut
                            c req v)
      = EvDumpRequestOut (dumpRequestBody c)
        :: trace_of (sendRequest Value ioReadAll jsonDecode dumpRequestOut
                                 (without_dump_logger c) req v)) /\
  (requestDumpLogger c = None ->
   logger_calls (trace_of (sendRequest Value ioReadAll jsonDecode
                                       dumpRequestOut c req v)) = [] /\
   serializations (trace_of (sendRequest Value ioReadAll jsonDecode
                                         dumpRequestOut c req v)) = 0%nat /\
   sendRequest Value ioReadAll jsonDecode dumpRequestOut c req v
   = client_do Value ioReadAll jsonDecode c req v).
Proof.
  split.
  - intros logger e Hl He.
    rewrite sendRequest_logger_calls.
    rewrite !sendRequest_eq, !logRequestDump_eq, Hl, He.
    split; [reflexivity|]. split; reflexivity.
  - intro Hl.
    rewrite sendRequest_logger_calls, sendRequest_serializations.
    rewrite sendRequest_eq, logRequestDump_eq, Hl.
    split; [reflexivity|]. split; [reflexivity|].
    destruct (client_do Value ioReadAll jsonDecode c req v); reflexivity.
Qed.

End Diagnostics.

(** What the head of a dump owes to the body: its length. *)
Lemma request_head_length_only (req : Request) (body : bytes) :
  List.length body = List.length (req_Body req) ->
  httputil.request_head (set_req_Body req body) = httputil.request_head req.
Proof.
  intro H. unfold httputil.request_head, set_req_Body.
  cbn [URL Method Header req_Body]. rewrite H. reflexivity.
Qed.

Section DumpContents.

Import httpclient.

Variable Value : Type.
Variable ioReadAll : ReadCloser -> bytes * option error.
Variable jsonDecode : ReadCloser -> Value -> Value * option error.

(** C9, as the code has it.  With a dump logger configured, the logger is
    handed exactly what [dumpRequestOut] returns for the client's
    [dumpRequestBody], whatever serializer that variable holds.  With the
    library's serializer: when [dumpRequestBody] is false the logger is
    handed the head of the request alone (request line and headers, the
    body not appended), and that is the same for any two bodies of one
    length, the body showing in it through [Content-Length] only; when
    [dumpRequestBody] is true the logger is handed that same head followed
    by the body byte for byte. *)
Theorem dump_body_follows_the_flag (c : client) (req : Request)
        (v : option Value) (logger : Logger) :
  requestDumpLogger c = Some logger ->
  (forall dumpRequestOut,
      logger_calls (trace_of (sendRequest Value ioReadAll jsonDecode
                                          dumpRequestOut c req v))
      = match dumpRequestOut req (dumpRequestBody c) with
        | (dump, None) => [(logger, dump)]
        | (_, Some _) => []
        end) /\
  (dumpRequestBody c = false ->
   logger_calls (trace_of (sendRequest Value ioReadAll jsonDecode
                                       httputil.DumpRequestOut c req v))
   = [(logger, httputil.request_head req)] /\
   forall body,
     List.length body = List.length (req_Body req) ->
     logger_calls (trace_of (sendRequest Value ioReadAll jsonDecode
                               httputil.DumpRequestOut
                               c (set_req_Body req body) v))
     = logger_calls (trace_of (sendRequest Value ioReadAll jsonDecode
                                 httputil.DumpRequestOut c req v))) /\
  (dumpRequestBody c = true ->
   logger_calls (trace_of (sendRequest Value ioReadAll jsonDecode
                                       httputil.DumpRequestOut c req v))
   = [(logger, (httputil.request_head req ++ req_Body req)%list)] /\
   occurs_in (req_Body req) (httputil.request_head req ++ req_Body req)%list).
Proof.
  intro Hl. split; [|split].
  - intro dumpRequestOut.
    rewrite sendRequest_logger_calls, logRequestDump_eq, Hl.
    cbn [trace_of snd].
    destruct (dumpRequestOut req (dumpRequestBody c)) as [dump [e|]];
      reflexivity.
  - intro Hflag.
    assert (Hlog : forall rq,
               logger_calls (trace_of (sendRequest Value ioReadAll jsonDecode
                                         httputil.DumpRequestOut c rq v))
               = [(logger, httputil.request_head rq)]).
    { intro rq. rewrite sendRequest_logger_calls, logRequestDump_eq, Hl, Hflag.
      unfold httputil.DumpRequestOut. cbn. rewrite app_nil_r. reflexivity. }
    split; [apply Hlog|].
    intros body Hlen. rewrite !Hlog, (request_head_length_only _ _ Hlen).
    reflexivity.
  - intro Hflag. split.
    + rewrite sendRequest_logger_calls, logRequestDump_eq, Hl, Hflag.
      reflexivity.
    + exists (httputil.request_head req), []. rewrite app_nil_r. reflexivity.
Qed.

End DumpContents.

(** ** C5: the default client against a server that answers 502 *)

Section DefaultClient.

Import httpclient.

Variable Value : Type.
Variable jsonDecode : ReadCloser -> Value -> Value * option error.
Variable dumpRequestOut : Request -> bool -> bytes * option error.

(** C5.  The server answers every attempt with 502 and an empty body,
    and the client is [New()] with the package's own [ioReadAll]:
    [SendRequest] returns a non-nil error, after one attempt, that
    renders as
    [request to <url> failed. httpStatus: [ 502 ] responseBody: [  ]
    error: [ <nil> ]]. *)
Theorem bad_gateway_error_message (NewClient : retryablehttp.Client)
        (req : Request) :
  (forall i rq, exists id,
        retryablehttp.HTTPClient NewClient i rq
        = (Some (mkResponse StatusBadGateway (mkReadCloser id [] None)),
           None)) ->
  exists resp h,
    value_of (run_SendRequest Value jsonDecode dumpRequestOut (New NewClient []) req)
      = Some (Some resp, None, Some h) /\
    HttpError_Error h
      = "request to " ++ URL req
        ++ " failed. httpStatus: [ 502 ] responseBody: [  ] error: [ <nil> ]"
    /\
    attempts_made (trace_of (run_SendRequest Value jsonDecode dumpRequestOut (New NewClient []) req))
      = 1%nat.
Proof.
  intro Hserver. destruct (Hserver 0%nat req) as [id H0].
  exists (mkResponse StatusBadGateway (mkReadCloser id [] None)).
  exists (mkHttpError (URL req) 502 "" None).
  rewrite New_eq. unfold run_SendRequest, SendRequest.
  rewrite sendRequest_eq, logRequestDump_eq.
  unfold client_do. cbn [retryableHttpClient set_retryableHttpClient Do].
  unfold retryablehttp.Do. rewrite attempt_loop_eq.
  unfold decision, outcome.
  cbn [retryablehttp.HTTPClient retryablehttp.Client_CheckRetry
       newClient fold_left checkRetryPolicy new_client policy_or_default
       doNotRetryPolicy fst snd negb retryablehttp.last_error
       requestDumpLogger].
  rewrite H0. cbn. repeat split.
Qed.

End DefaultClient.

(** ** C6: who closes the body *)

Lemma closes_of_app (id : nat) (t t' : list Event) :
  closes_of id (t ++ t') = (closes_of id t + closes_of id t')%nat.
Proof. unfold closes_of. rewrite filter_app, length_app. reflexivity. Qed.

Lemma attempt_loop_closes_nothing (id : nat) (c : retryablehttp.Client)
      (req : Request) (remain : nat) :
  forall i,
    closes_of id (trace_of (retryablehttp.attempt_loop c req remain i)) = 0%nat.
Proof.
  induction remain as [|remain IH]; intro i; rewrite attempt_loop_eq;
    destruct (negb (fst (decision c req i))); try reflexivity.
  exact (IH (S i)).
Qed.

Lemma Do_closes_nothing (id : nat) (r : httpclient.retryableHttpClientIface)
      (req : Request) :
  closes_of id (trace_of (httpclient.Do r req)) = 0%nat.
Proof.
  destruct r; cbn; try reflexivity. apply attempt_loop_closes_nothing.
Qed.

Section BodyOwnership.

Import httpclient.

Variable Resume : Type.
Variable zero_Resume : Resume.
Variable ioReadAll : ReadCloser -> bytes * option error.
Variable jsonDecode : ReadCloser -> Resume -> Resume * option error.
Variable dumpRequestOut : Request -> bool -> bytes * option error.
Variable jsonMarshal : rps.parseDocumentRequest -> bytes * option error.
Variable newRequestWithContext :
  Context -> string -> string -> bytes -> option Request * option error.
Variable newHttpClient : list Option -> option client.
Variable base64_EncodeToString : bytes -> string.

Lemma logRequestDump_closes_nothing (id : nat) (c : client) (req : Request) :
  closes_of id (trace_of (logRequestDump dumpRequestOut c req)) = 0%nat.
Proof.
  rewrite logRequestDump_eq. cbn [trace_of snd].
  destruct (requestDumpLogger c); [|reflexivity].
  destruct (snd (dumpRequestOut req (dumpRequestBody c))); reflexivity.
Qed.

Lemma client_do_decodes (c : client) (req : Request) (resp : Response)
      (d d' : Resume) :
  value_of (Do (retryableHttpClient c) req) = Some (Some resp, None) ->
  resp_StatusCode resp < 400 ->
  jsonDecode (resp_Body resp) d = (d', None) ->
  client_do Resume ioReadAll jsonDecode c req (Some d) =
  (Some (Some resp, Some d', None),
   (trace_of (Do (retryableHttpClient c) req)
    ++ [EvBodyDecode (rc_id (resp_Body resp));
        EvBodyClose (rc_id (resp_Body resp))])%list).
Proof.
  intros Hdo Hstatus Hdecode. unfold client_do.
  destruct (Do (retryableHttpClient c) req) as [val t].
  cbn in Hdo. subst val. cbn [bind trace_of snd].
  rewrite (handleUnsuccessfulResponse_lt_400 _ _ _ _ Hstatus).
  cbn [bind]. rewrite decodeResponse_eq, Hdecode. reflexivity.
Qed.

(** C6 on the code.  On the success path of [ParseDocument] (the request
    is built, [Do] ends with a response below 400 and no error, and the
    body decodes) the response's body is closed twice: once by
    [decodeResponse] and once more by [ParseDocument]'s deferred
    close. *)
Theorem ParseDocument_closes_body_twice
        (r : rps.resumeParsingServiceClient) (ctx : Context)
        (fileContents : bytes) (h : client) (j : bytes) (req : Request)
        (resp : Response) (resume : Resume) :
  rps.httpClient r = Some h ->
  jsonMarshal (rps.mkparseDocumentRequest
                 (base64_EncodeToString fileContents)) = (j, None) ->
  newRequestWithContext ctx "POST" (rps.rioParseBaseUrl r ++ "/api/parse") j
    = (Some req, None) ->
  value_of (Do (retryableHttpClient h) (with_headers r req))
    = Some (Some resp, None) ->
  resp_StatusCode resp < 400 ->
  jsonDecode (resp_Body resp) zero_Resume = (resume, None) ->
  value_of (rps.ParseDocument Resume zero_Resume ioReadAll jsonDecode
              dumpRequestOut jsonMarshal newRequestWithContext
              base64_EncodeToString r ctx fileContents)
    = Some (Some resume, None) /\
  closes_of (rc_id (resp_Body resp))
    (trace_of (rps.ParseDocument Resume zero_Resume ioReadAll jsonDecode
                 dumpRequestOut jsonMarshal newRequestWithContext
                 base64_EncodeToString r ctx fileContents))
    = 2%nat.
Proof.
  intros Hh Hmarshal Hreq Hdo Hstatus Hdecode.
  unfold rps.ParseDocument. rewrite Hmarshal.
  change (rps.rioParseBaseUrl r ++ "/" ++ "api/parse")
    with (rps.rioParseBaseUrl r ++ "/api/parse").
  rewrite Hreq, Hh. fold (with_headers r req).
  unfold SendRequestAndUnmarshallJsonResponse.
  rewrite sendRequest_eq.
  rewrite (client_do_decodes _ _ _ _ _ Hdo Hstatus Hdecode).
  cbn [bind value_of trace_of fst snd emit ret].
  split; [reflexivity|].
  rewrite !closes_of_app, logRequestDump_closes_nothing, Do_closes_nothing.
  cbn. rewrite Nat.eqb_refl. reflexivity.
Qed.

End BodyOwnership.


(** The expectations of httpclient_test.go, on the model. *)

Example TestEofRetryPolicy :
  example.rendered
    (run_SendRequest example.dummyType example.jsonDecode_dummyType
       example.dumpRequestOut_wire
       (httpclient.New (example.NewClient example.server_dropping)
          [ httpclient.WithMaxRetries 1;
            httpclient.WithCheckRetryPolicy (Some example.eofCheckRetryPolicy) ])
       example.get_request)
  = "request to http://127.0.0.1:8080 failed. httpStatus: [ no status ] responseBody: [  ] error: [ GET http://127.0.0.1:8080 giving up after 2 attempt(s): Get "
    ++ example.quote ++ "http://127.0.0.1:8080" ++ example.quote ++ ": EOF ]".
Proof. reflexivity. Qed.

Example TestSendRequest_error_when_parsing :
  example.rendered
    (httpclient.SendRequest example.dummyType
       (fun _ => ([], Some (ErrNew "random error")))
       example.jsonDecode_dummyType example.dumpRequestOut_wire
       (with_final_outcome httpclient.new_client
          (Some scenario.internal_error_response) None)
       example.some_path_request)
  = "request to http://localhost/some/path failed. httpStatus: [ 500 ] responseBody: [  ] error: [ parsing response: random error ]".
Proof. reflexivity. Qed.

Example TestSendRequest_without_response :
  example.rendered
    (httpclient.SendRequest example.dummyType io_ReadAll
       example.jsonDecode_dummyType example.dumpRequestOut_wire
       (with_final_outcome httpclient.new_client
          None (Some (ErrNew "random error")))
       example.some_path_request)
  = "request to http://localhost/some/path failed. httpStatus: [ no status ] responseBody: [  ] error: [ random error ]".
Proof. reflexivity. Qed.

Example TestSendRequestAndUnmarshall_error_when_decoding :
  example.rendered
    (httpclient.SendRequestAndUnmarshallJsonResponse example.dummyType
       io_ReadAll
       (fun _ d => (d, Some (ErrNew "random error")))
       example.dumpRequestOut_wire
       (with_final_outcome httpclient.new_client
          (Some scenario.ok_response) None)
       example.some_path_request (Some (example.mkdummyType "")))
  = "request to http://localhost/some/path failed. httpStatus: [ 200 ] responseBody: [  ] error: [ decoding response: random error ]".
Proof. reflexivity. Qed.

Example base64_hello :
  example.base64_EncodeToString (list_byte_of_string "hello") = "aGVsbG8=".
Proof. reflexivity. Qed.

Example decode_key_value :
  example.jsonDecode_dummyType (example.NopCloser 0 example.key_value_body)
                               (example.mkdummyType "")
  = (example.mkdummyType "value", None).
Proof. reflexivity. Qed.


(** ** The theorems at work on the scenarios *)

(** The dumps the repository records, on the model of the serializer: the
    dump the test "dumping request" of httpclient_test.go expects, and the
    head of the README's sample output. *)

Example TestSendRequest_dumping_request :
  httputil.DumpRequestOut example.some_path_request false
  = (list_byte_of_string
       ("POST /some/path HTTP/1.1" ++ httputil.CRLF
        ++ "Host: localhost" ++ httputil.CRLF
        ++ "User-Agent: Go-http-client/1.1" ++ httputil.CRLF
        ++ "Content-Length: 0" ++ httputil.CRLF
        ++ "Accept-Encoding: gzip" ++ httputil.CRLF
        ++ httputil.CRLF),
     None).
Proof. reflexivity. Qed.

Example README_dump_without_body :
  httputil.DumpRequestOut
    (with_headers
       (cases.rps_client_over cases.ok_http_client)
       (mkRequest ctx_Background "POST" "http://localhost:3333/api/parse" []
                  (list_byte_of_string "0123456789")))
    false
  = (list_byte_of_string
       ("POST /api/parse HTTP/1.1" ++ httputil.CRLF
        ++ "Host: localhost:3333" ++ httputil.CRLF
        ++ "User-Agent: Go-http-client/1.1" ++ httputil.CRLF
        ++ "Content-Length: 10" ++ httputil.CRLF
        ++ "Content-Type: application/json" ++ httputil.CRLF
        ++ "Token: TOKEN" ++ httputil.CRLF
        ++ "Accept-Encoding: gzip" ++ httputil.CRLF
        ++ httputil.CRLF),
     None).
Proof. reflexivity. Qed.

(** Comparisons between concrete status codes. *)
Ltac status_arith := vm_compute; first [reflexivity | discriminate].

Lemma default_policy_is_do_not_retry_witness :
  existsb httpclient.is_CheckRetryPolicy [httpclient.EMaxRetries 3] = false /\
  installed_CheckRetry
    (httpclient.New scenario.bad_gateway_lib
                    (map httpclient.denote [httpclient.EMaxRetries 3]))
  = Some httpclient.doNotRetryPolicy /\
  attempts_made
    (trace_of
       (run_Do (httpclient.New scenario.bad_gateway_lib
                               (map httpclient.denote [httpclient.EMaxRetries 3]))
               example.some_path_request))
  = 1%nat.
Proof.
  split; [reflexivity|].
  destruct (default_policy_is_do_not_retry
              scenario.bad_gateway_lib [httpclient.EMaxRetries 3] eq_refl)
    as (Hinstalled & _ & Hdo & _).
  split; [exact Hinstalled|].
  exact (proj2 (Hdo example.some_path_request)).
Defined.

Lemma custom_policy_attempt_count_witness :
  httpclient.checkRetryPolicy
    (httpclient.newClient (map httpclient.denote scenario.retrying_options))
  = Some example.retryIfInternalServerError /\
  fst (answer scenario.flaky_lib example.retryIfInternalServerError
              example.some_path_request 1) = true /\
  fst (answer scenario.flaky_lib example.retryIfInternalServerError
              example.some_path_request 2) = false /\
  attempts_made
    (trace_of
       (run_Do (httpclient.New scenario.flaky_lib
                               (map httpclient.denote scenario.retrying_options))
               example.some_path_request))
  = 2%nat.
Proof.
  split; [reflexivity|]. split; [reflexivity|]. split; [reflexivity|].
  apply (proj1 (custom_policy_attempt_count
                  scenario.flaky_lib scenario.retrying_options
                  example.retryIfInternalServerError
                  example.some_path_request eq_refl) 2%nat).
  - cbn. lia.
  - intros k Hk. assert (k = 1%nat) as -> by lia. reflexivity.
  - reflexivity.
Defined.

Lemma unsuccessful_response_is_reported_witness :
  400 <= resp_StatusCode scenario.internal_error_response /\
  exists h,
    httpclient.handleUnsuccessfulResponse
      io_ReadAll (URL example.some_path_request)
      (Some scenario.internal_error_response) None
    = (Some (Some h), [EvBodyRead 1; EvBodyClose 1]) /\
    StatusCode h = 500 /\
    Body h = scenario.error_body /\
    Err h = None.
Proof.
  split; [status_arith|].
  destruct (unsuccessful_response_is_reported
              example.dummyType io_ReadAll example.jsonDecode_dummyType
              httpclient.new_client example.some_path_request None
              scenario.internal_error_response None
              ltac:(status_arith))
    as (h & Hh & _ & _ & Hstatus & Hread & _).
  exists h. split; [exact Hh|]. split; [exact Hstatus|].
  destruct (Hread _ eq_refl) as (Hbody & _ & Herr).
  split; [exact Hbody | exact Herr].
Defined.

Lemma successful_response_is_decoded_witness :
  resp_StatusCode scenario.ok_response < 400 /\
  httpclient.client_do
    example.dummyType io_ReadAll example.jsonDecode_dummyType
    (with_final_outcome httpclient.new_client (Some scenario.ok_response) None)
    example.some_path_request (Some (example.mkdummyType ""))
  = (Some (Some scenario.ok_response, Some (example.mkdummyType "value"), None),
     [EvBodyDecode 1; EvBodyClose 1]).
Proof.
  split; [status_arith|].
  exact (successful_response_is_decoded
           example.dummyType io_ReadAll example.jsonDecode_dummyType
           httpclient.new_client example.some_path_request
           scenario.ok_response (example.mkdummyType "")
           ltac:(status_arith)).
Defined.

Lemma error_with_successful_response_witness :
  resp_StatusCode scenario.ok_response < 400 /\
  httpclient.client_do
    example.dummyType io_ReadAll example.jsonDecode_dummyType
    (with_final_outcome httpclient.new_client (Some scenario.ok_response)
                        (Some (ErrNew "random error")))
    example.some_path_request None
  = (Some (Some scenario.ok_response, None,
           Some (mkHttpError (URL example.some_path_request) 0 ""
                             (Some (ErrNew "random error")))),
     []).
Proof.
  split; [status_arith|].
  exact (proj1 (proj2 (error_with_successful_response
                         example.dummyType io_ReadAll
                         example.jsonDecode_dummyType httpclient.new_client
                         example.some_path_request None scenario.ok_response
                         (ErrNew "random error") ltac:(status_arith)))).
Defined.

Lemma bad_gateway_error_message_witness :
  (forall i rq, exists id,
        retryablehttp.HTTPClient scenario.bad_gateway_lib i rq
        = (Some (mkResponse StatusBadGateway (mkReadCloser id [] None)), None))
  /\
  exists resp h,
    value_of (run_SendRequest example.dummyType example.jsonDecode_dummyType
                example.dumpRequestOut_wire
                (httpclient.New scenario.bad_gateway_lib [])
                example.some_path_request)
    = Some (Some resp, None, Some h) /\
    HttpError_Error h
    = "request to http://localhost/some/path failed. httpStatus: [ 502 ] responseBody: [  ] error: [ <nil> ]".
Proof.
  assert (Hserver : forall i rq, exists id,
             retryablehttp.HTTPClient scenario.bad_gateway_lib i rq
             = (Some (mkResponse StatusBadGateway (mkReadCloser id [] None)),
                None))
    by (intros i rq; exists i; reflexivity).
  split; [exact Hserver|].
  destruct (bad_gateway_error_message
              example.dummyType example.jsonDecode_dummyType
              example.dumpRequestOut_wire scenario.bad_gateway_lib
              example.some_path_request Hserver)
    as (resp & h & Hvalue & Hmessage & _).
  exists resp, h. split; [exact Hvalue | exact Hmessage].
Defined.

Lemma dump_failure_is_swallowed_witness :
  httpclient.requestDumpLogger (scenario.logging_client false)
  = Some (LoggerFn 1) /\
  snd (example.dumpRequestOut_failing example.some_path_request false)
  = Some (ErrNew "random error") /\
  logger_calls
    (trace_of (httpclient.sendRequest
                 example.dummyType io_ReadAll example.jsonDecode_dummyType
                 example.dumpRequestOut_failing
                 (scenario.logging_client false) example.some_path_request None))
  = [] /\
  value_of (httpclient.sendRequest
              example.dummyType io_ReadAll example.jsonDecode_dummyType
              example.dumpRequestOut_failing
              (scenario.logging_client false) example.some_path_request None)
  = value_of (httpclient.sendRequest
                example.dummyType io_ReadAll example.jsonDecode_dummyType
                example.dumpRequestOut_failing
                (without_dump_logger (scenario.logging_client false))
                example.some_path_request None).
Proof.
  split; [reflexivity|]. split; [reflexivity|].
  destruct (proj1 (dump_failure_is_swallowed
                     example.dummyType io_ReadAll example.jsonDecode_dummyType
                     example.dumpRequestOut_failing
                     (scenario.logging_client false)
                     example.some_path_request None)
                  (LoggerFn 1) (ErrNew "random error") eq_refl eq_refl)
    as (Hcalls & Hvalue & _).
  split; [exact Hcalls | exact Hvalue].
Defined.

Lemma dump_body_follows_the_flag_witness :
  httpclient.requestDumpLogger (scenario.logging_client false)
  = Some (LoggerFn 1) /\
  logger_calls
    (trace_of (httpclient.sendRequest
                 example.dummyType io_ReadAll example.jsonDecode_dummyType
                 httputil.DumpRequestOut (scenario.logging_client false)
                 scenario.request_with_body None))
  = [(LoggerFn 1, httputil.request_head scenario.request_with_body)] /\
  logger_calls
    (trace_of (httpclient.sendRequest
                 example.dummyType io_ReadAll example.jsonDecode_dummyType
                 httputil.DumpRequestOut (scenario.logging_client true)
                 scenario.request_with_body None))
  = [(LoggerFn 1,
      (httputil.request_head scenario.request_with_body
       ++ list_byte_of_string "secret")%list)].
Proof.
  split; [reflexivity|]. split.
  - exact (proj1 (proj1 (proj2 (dump_body_follows_the_flag
                                  example.dummyType io_ReadAll
                                  example.jsonDecode_dummyType
                                  (scenario.logging_client false)
                                  scenario.request_with_body
                                  None (LoggerFn 1) eq_refl))
                        eq_refl)).
  - exact (proj1 (proj2 (proj2 (dump_body_follows_the_flag
                                  example.dummyType io_ReadAll
                                  example.jsonDecode_dummyType
                                  (scenario.logging_client true)
                                  scenario.request_with_body
                                  None (LoggerFn 1) eq_refl))
                        eq_refl)).
Defined.

(** C9 as stated fails.  With [dumpRequestBody] false the dump is not
    independent of the body: the same request with the body [secret] and
    with the body [gzip] is dumped differently ([Content-Length: 6]
    against [Content-Length: 4]); and the bytes of a body can be found in
    the dump all the same, as those of the body [gzip] are. *)
Lemma dump_without_body_depends_on_the_body :
  logger_calls
    (trace_of (httpclient.sendRequest
                 example.dummyType io_ReadAll example.jsonDecode_dummyType
                 httputil.DumpRequestOut (scenario.logging_client false)
                 (set_req_Body example.some_path_request
                               (list_byte_of_string "secret"))
                 None))
  <> logger_calls
       (trace_of (httpclient.sendRequest
                    example.dummyType io_ReadAll example.jsonDecode_dummyType
                    httputil.DumpRequestOut (scenario.logging_client false)
                    (set_req_Body example.some_path_request
                                  (list_byte_of_string "gzip"))
                    None)) /\
  exists dump,
    logger_calls
      (trace_of (httpclient.sendRequest
                   example.dummyType io_ReadAll example.jsonDecode_dummyType
                   httputil.DumpRequestOut (scenario.logging_client false)
                   (set_req_Body example.some_path_request
                                 (list_byte_of_string "gzip"))
                   None))
    = [(LoggerFn 1, dump)] /\
    occurs_in (list_byte_of_string "gzip") dump.
Proof.
  split.
  - vm_compute. discriminate.
  - eexists. split; [reflexivity|].
    set (d := httputil.request_head _).
    exists (firstn (List.length d - 8) d), (skipn (List.length d - 4) d).
    vm_compute. reflexivity.
Qed.

Lemma ParseDocument_closes_body_twice_witness :
  exists r,
    scenario.resume_client = Some r /\
    value_of (scenario.run_ParseDocument (Some r) [])
    = Some (Some "Morgana", None) /\
    closes_of 0 (trace_of (scenario.run_ParseDocument (Some r) []))
    = 2%nat.
Proof.
  eexists. split; [cbv; reflexivity|].
  unfold scenario.run_ParseDocument.
  eapply (ParseDocument_closes_body_twice
            example.Resume "" io_ReadAll
            (example.jsonDecode_member "first_name")
            example.dumpRequestOut_wire example.jsonMarshal
            example.newRequestWithContext example.base64_EncodeToString
            _ ctx_TODO [] _ _ _
            (mkResponse 200 (example.NopCloser 0 example.first_name_body))
            "Morgana").
  - reflexivity.
  - reflexivity.
  - reflexivity.
  - reflexivity.
  - status_arith.
  - reflexivity.
Defined.

(** * Beyond the claims

    Properties of the rest of the two packages, read off the code. *)

(** ** What the retry loop leaves in a trace *)

Lemma filter_none {A} (p q : A -> bool) (l : list A) :
  Forall (fun a => p a = true) l ->
  (forall a, p a = true -> q a = false) ->
  filter q l = [].
Proof.
  intros Hall Hpq. induction Hall as [|a l Ha _ IH]; [reflexivity|].
  cbn. rewrite (Hpq a Ha). exact IH.
Qed.

Lemma attempt_loop_network_only (c : retryablehttp.Client) (req : Request)
      (remain : nat) :
  forall i,
    Forall (fun e => is_network_event e = true)
           (trace_of (retryablehttp.attempt_loop c req remain i)).
Proof.
  induction remain as [|remain IH]; intro i; rewrite attempt_loop_eq;
    destruct (negb (fst (decision c req i))); cbn [trace_of snd];
    repeat (constructor; try reflexivity).
  apply IH.
Qed.

Lemma Do_network_only (r : httpclient.retryableHttpClientIface)
      (req : Request) :
  Forall (fun e => is_network_event e = true)
         (trace_of (httpclient.Do r req)).
Proof.
  destruct r; cbn; try constructor. apply attempt_loop_network_only.
Qed.

Lemma Do_reads_nothing (id : nat) (r : httpclient.retryableHttpClientIface)
      (req : Request) :
  reads_of id (trace_of (httpclient.Do r req)) = 0%nat.
Proof.
  unfold reads_of.
  rewrite (filter_none is_network_event (is_read_of id));
    [reflexivity | apply Do_network_only |].
  intros [] H; try discriminate H; reflexivity.
Qed.

Lemma Do_decodes_nothing (id : nat) (r : httpclient.retryableHttpClientIface)
      (req : Request) :
  decodes_of id (trace_of (httpclient.Do r req)) = 0%nat.
Proof.
  unfold decodes_of.
  rewrite (filter_none is_network_event (is_decode_of id));
    [reflexivity | apply Do_network_only |].
  intros [] H; try discriminate H; reflexivity.
Qed.

Lemma reads_of_app (id : nat) (t t' : list Event) :
  reads_of id (t ++ t') = (reads_of id t + reads_of id t')%nat.
Proof. unfold reads_of. rewrite filter_app, length_app. reflexivity. Qed.

Lemma decodes_of_app (id : nat) (t t' : list Event) :
  decodes_of id (t ++ t') = (decodes_of id t + decodes_of id t')%nat.
Proof. unfold decodes_of. rewrite filter_app, length_app. reflexivity. Qed.

(** ** The pipeline of [sendRequest] *)

Section Pipeline.

Import httpclient.

Variable Value : Type.
Variable ioReadAll : ReadCloser -> bytes * option error.
Variable jsonDecode : ReadCloser -> Value -> Value * option error.
Variable dumpRequestOut : Request -> bool -> bytes * option error.

(** [client_do], branch by branch, in terms of what [Do] returned. *)
Lemma client_do_cases (c : client) (req : Request) (v : option Value) :
  client_do Value ioReadAll jsonDecode c req v =
  match Do (retryableHttpClient c) req with
  | (None, t) => (None, t)
  | (Some (Some r, err), t) =>
      if 400 <=? resp_StatusCode r then
        (Some (Some r, v,
               Some (unsuccessful_response_error ioReadAll (URL req) r err)),
         (t ++ [EvBodyRead (rc_id (resp_Body r));
                EvBodyClose (rc_id (resp_Body r))])%list)
      else
        match err, v with
        | Some e, _ =>
            (Some (Some r, v, Some (mkHttpError (URL req) 0 "" (Some e))), t)
        | None, Some d =>
            (Some (Some r, Some (fst (jsonDecode (resp_Body r) d)),
                   match snd (jsonDecode (resp_Body r) d) with
                   | Some e =>
                       Some (mkHttpError (URL req) (resp_StatusCode r) ""
                               (Some (ErrWrap e "decoding response")))
                   | None => None
                   end),
             (t ++ [EvBodyDecode (rc_id (resp_Body r));
                    EvBodyClose (rc_id (resp_Body r))])%list)
        | None, None => (Some (Some r, None, None), t)
        end
  | (Some (None, Some e), t) =>
      (Some (None, v, Some (mkHttpError (URL req) 0 "" (Some e))), t)
  | (Some (None, None), t) => (Some (None, v, None), t)
  end.
Proof.
  unfold client_do.
  destruct (Do (retryableHttpClient c) req) as [[[[r|] err]|] t];
    cbn [bind]; [| |reflexivity].
  - destruct (Z.leb_spec 400 (resp_StatusCode r)) as [Hge|Hlt].
    + rewrite (handleUnsuccessfulResponse_ge_400 _ _ _ _ Hge). reflexivity.
    + rewrite (handleUnsuccessfulResponse_lt_400 _ _ _ _ Hlt).
      destruct err as [e|]; cbn [bind ret].
      * destruct v; rewrite ?app_nil_r; reflexivity.
      * destruct v as [d|].
        -- rewrite decodeResponse_eq.
           destruct (snd (jsonDecode (resp_Body r) d)); reflexivity.
        -- cbn. rewrite ?app_nil_r. reflexivity.
  - destruct err as [e|]; cbn; rewrite ?app_nil_r; [reflexivity|].
    destruct v; cbn; rewrite ?app_nil_r; reflexivity.
Qed.

Lemma logRequestDump_reads_nothing (id : nat) (c : client) (req : Request) :
  reads_of id (trace_of (logRequestDump dumpRequestOut c req)) = 0%nat.
Proof.
  rewrite logRequestDump_eq. cbn [trace_of snd].
  destruct (requestDumpLogger c); [|reflexivity].
  destruct (snd (dumpRequestOut req (dumpRequestBody c))); reflexivity.
Qed.

(** X1.  [client_do] hands back the response [Do] returned, whatever
    happens, and it reports no error exactly when [Do] reported none, the
    response (if there is one) is below 400, and the decoder (if a target
    was given and there is a response) did not fail. *)
Theorem do_succeeds_exactly_when (c : client) (req : Request)
        (v : option Value) (resp : option Response) (err : option error) :
  value_of (Do (retryableHttpClient c) req) = Some (resp, err) ->
  exists v' herr,
    value_of (client_do Value ioReadAll jsonDecode c req v)
      = Some (resp, v', herr) /\
    (herr = None <->
     err = None /\
     (forall r, resp = Some r -> resp_StatusCode r < 400) /\
     (forall r d, resp = Some r -> v = Some d ->
                  snd (jsonDecode (resp_Body r) d) = None)).
Proof.
  intro Hdo. rewrite client_do_cases.
  destruct (Do (retryableHttpClient c) req) as [[[resp' err']|] t];
    cbn in Hdo; inversion Hdo; subst resp' err'; clear Hdo.
  destruct resp as [r|].
  - destruct (Z.leb_spec 400 (resp_StatusCode r)) as [Hge|Hlt].
    + do 2 eexists. split; [reflexivity|]. split; [discriminate|].
      intros (_ & Hs & _). specialize (Hs r eq_refl). lia.
    + destruct err as [e|].
      * do 2 eexists. split; [reflexivity|]. split; [discriminate|].
        intros (He & _). discriminate He.
      * destruct v as [d|].
        -- do 2 eexists. split; [reflexivity|].
           destruct (snd (jsonDecode (resp_Body r) d)) as [e|] eqn:Hd.
           ++ split; [discriminate|]. intros (_ & _ & Hdec).
              specialize (Hdec r d eq_refl eq_refl). congruence.
           ++ split; [|reflexivity]. intros _.
              split; [reflexivity|]. split.
              ** intros r0 Hr. inversion Hr; subst. exact Hlt.
              ** intros r0 d0 Hr Hv. inversion Hr; inversion Hv; subst.
                 exact Hd.
        -- do 2 eexists. split; [reflexivity|]. split; [|reflexivity].
           intros _. split; [reflexivity|]. split.
           ++ intros r0 Hr. inversion Hr; subst. exact Hlt.
           ++ intros r0 d0 _ Hv. discriminate Hv.
  - destruct err as [e|].
    + do 2 eexists. split; [reflexivity|]. split; [discriminate|].
      intros (He & _). discriminate He.
    + do 2 eexists. split; [reflexivity|]. split; [|reflexivity].
      intros _. split; [reflexivity|]. split.
      * intros r0 Hr. discriminate Hr.
      * intros r0 d0 Hr. discriminate Hr.
Qed.

(** X2.  Every error [sendRequest] returns names the request's URL; its
    status is either absent (zero) or the status of the response returned
    with it; and an error with a captured body, or with no cause, comes
    with a response of 400 or more. *)
Theorem error_names_request (c : client) (req : Request) (v v' : option Value)
        (resp : option Response) (h : HttpError) :
  value_of (sendRequest Value ioReadAll jsonDecode dumpRequestOut c req v)
    = Some (resp, v', Some h) ->
  Url h = URL req /\
  (StatusCode h = 0 \/
   exists r, resp = Some r /\ StatusCode h = resp_StatusCode r) /\
  (Body h <> "" -> exists r, resp = Some r /\ 400 <= resp_StatusCode r) /\
  (Err h = None -> exists r, resp = Some r /\ 400 <= resp_StatusCode r).
Proof.
  rewrite sendRequest_eq. cbn [value_of fst]. rewrite client_do_cases.
  destruct (Do (retryableHttpClient c) req) as [[[[r|] err]|] t];
    cbn [fst]; [| |discriminate].
  - destruct (Z.leb_spec 400 (resp_StatusCode r)) as [Hge|Hlt].
    + intro H. inversion H; subst. clear H.
      unfold unsuccessful_response_error.
      destruct (ioReadAll (resp_Body r)) as [bs [e|]]; cbn;
        (split; [reflexivity|]); (split; [right; eauto|]);
        split; intros _; eauto.
    + destruct err as [e|].
      * intro H. inversion H; subst. cbn.
        split; [reflexivity|]. split; [left; reflexivity|].
        split; [intro Hb; contradiction Hb; reflexivity | discriminate].
      * destruct v as [d|]; [|discriminate].
        destruct (snd (jsonDecode (resp_Body r) d)) as [e|]; [|discriminate].
        intro H. inversion H; subst. cbn.
        split; [reflexivity|]. split; [right; eauto|].
        split; [intro Hb; contradiction Hb; reflexivity | discriminate].
  - destruct err as [e|]; [|discriminate].
    intro H. inversion H; subst. cbn.
    split; [reflexivity|]. split; [left; reflexivity|].
    split; [intro Hb; contradiction Hb; reflexivity | discriminate].
Qed.

(** X3.  When [Do] reports an error, or a response of 400 or more, the
    decode target comes back as it was given and the decoder has not been
    called: the trace holds no decoding beyond what [Do] itself left. *)
Theorem target_untouched_on_failure (c : client) (req : Request)
        (v : option Value) (resp : option Response) (err : option error) :
  value_of (Do (retryableHttpClient c) req) = Some (resp, err) ->
  (err <> None \/ exists r, resp = Some r /\ 400 <= resp_StatusCode r) ->
  exists h,
    value_of (client_do Value ioReadAll jsonDecode c req v)
      = Some (resp, v, Some h) /\
    forall id,
      decodes_of id (trace_of (client_do Value ioReadAll jsonDecode c req v))
      = decodes_of id (trace_of (Do (retryableHttpClient c) req)).
Proof.
  intros Hdo Hfail. rewrite client_do_cases.
  destruct (Do (retryableHttpClient c) req) as [[[resp' err']|] t];
    cbn in Hdo; inversion Hdo; subst resp' err'; clear Hdo.
  destruct resp as [r|].
  - destruct (Z.leb_spec 400 (resp_StatusCode r)) as [Hge|Hlt].
    + eexists. split; [reflexivity|]. intro id. cbn [trace_of snd].
      rewrite decodes_of_app. cbn. apply Nat.add_0_r.
    + destruct err as [e|].
      * eexists. split; [reflexivity|]. reflexivity.
      * destruct Hfail as [He | (r0 & Hr & Hge)];
          [contradiction He; reflexivity|].
        inversion Hr; subst. lia.
  - destruct err as [e|].
    + eexists. split; [reflexivity|]. reflexivity.
    + destruct Hfail as [He | (r0 & Hr & _)];
        [contradiction He; reflexivity | discriminate Hr].
Qed.

(** X4.  On top of whatever [Do] did to it, [sendRequest] reads the body
    of the response as often as it closes it: once each when the status is
    400 or more, or when there is no error and a decode target was given;
    in every other case (an error with a response below 400, or success
    without a target) it does neither, and the body is left to the
    caller. *)
Theorem body_read_as_often_as_closed (c : client) (req : Request)
        (v : option Value) (r : Response) (err : option error) :
  value_of (Do (retryableHttpClient c) req) = Some (Some r, err) ->
  reads_of (rc_id (resp_Body r))
           (trace_of (sendRequest Value ioReadAll jsonDecode dumpRequestOut
                                  c req v))
  = (reads_of (rc_id (resp_Body r)) (trace_of (Do (retryableHttpClient c) req))
     + match err, v with
       | None, Some _ => 1
       | _, _ => if (400 <=? resp_StatusCode r)%Z then 1 else 0
       end)%nat /\
  closes_of (rc_id (resp_Body r))
            (trace_of (sendRequest Value ioReadAll jsonDecode dumpRequestOut
                                   c req v))
  = (closes_of (rc_id (resp_Body r)) (trace_of (Do (retryableHttpClient c) req))
     + match err, v with
       | None, Some _ => 1
       | _, _ => if (400 <=? resp_StatusCode r)%Z then 1 else 0
       end)%nat.
Proof.
  intro Hdo. rewrite sendRequest_eq. cbn [trace_of snd].
  rewrite reads_of_app, closes_of_app.
  rewrite logRequestDump_reads_nothing, logRequestDump_closes_nothing.
  rewrite client_do_cases.
  destruct (Do (retryableHttpClient c) req) as [[[resp' err']|] t];
    cbn in Hdo; inversion Hdo; subst resp' err'; clear Hdo.
  cbn [Nat.add].
  destruct (400 <=? resp_StatusCode r).
  - cbn [trace_of snd]. rewrite reads_of_app, closes_of_app. cbn.
    rewrite Nat.eqb_refl. destruct err, v; split; reflexivity.
  - destruct err as [e|];
      [destruct v; cbn [trace_of snd]; rewrite !Nat.add_0_r;
       split; reflexivity|].
    destruct v as [d|]; cbn [trace_of snd].
    + rewrite reads_of_app, closes_of_app. cbn.
      rewrite Nat.eqb_refl. split; reflexivity.
    + rewrite !Nat.add_0_r. split; reflexivity.
Qed.

(** X5.  The dump hook runs before anything is sent and once per call,
    however many attempts follow: the trace of [sendRequest] is that of
    [logRequestDump], which holds no attempt, followed by that of
    [client_do], which holds no dump event; the logger is called with
    exactly the serializer's bytes when a logger is set and serializing
    succeeds, and not at all otherwise. *)
Theorem dump_once_before_attempts (c : client) (req : Request)
        (v : option Value) :
  trace_of (sendRequest Value ioReadAll jsonDecode dumpRequestOut c req v)
  = (trace_of (logRequestDump dumpRequestOut c req)
     ++ trace_of (client_do Value ioReadAll jsonDecode c req v))%list /\
  attempts_made (trace_of (logRequestDump dumpRequestOut c req)) = 0%nat /\
  dump_events (trace_of (client_do Value ioReadAll jsonDecode c req v)) = [] /\
  logger_calls (trace_of (sendRequest Value ioReadAll jsonDecode
                                      dumpRequestOut c req v))
  = match requestDumpLogger c, dumpRequestOut req (dumpRequestBody c) with
    | Some logger, (dump, None) => [(logger, dump)]
    | _, _ => []
    end.
Proof.
  split; [rewrite sendRequest_eq; reflexivity|].
  split.
  { rewrite logRequestDump_eq. cbn [trace_of snd].
    destruct (requestDumpLogger c); [|reflexivity].
    destruct (snd (dumpRequestOut req (dumpRequestBody c))); reflexivity. }
  split; [apply client_do_no_dump_events|].
  rewrite sendRequest_logger_calls, logRequestDump_eq. cbn [trace_of snd].
  destruct (requestDumpLogger c); [|reflexivity].
  destruct (dumpRequestOut req (dumpRequestBody c)) as [dump [e|]];
    reflexivity.
Qed.

End Pipeline.

(** ** Options: order, effect, defaults *)

Section ClientOptions.

Import httpclient httpclient_fields httpclient_options.

Lemma client_distinct_kinds_NoDup (es : list OptionExpr) :
  distinct_kinds es = true <-> NoDup (map option_kind es).
Proof.
  induction es as [|e es IH]; cbn [distinct_kinds map].
  - split; [constructor | reflexivity].
  - rewrite andb_true_iff, negb_true_iff, IH. split.
    + intros [Hnot Hnd]. constructor; [|exact Hnd].
      intro Hin. apply in_map_iff in Hin as (e' & Hk & Hin').
      assert (existsb (same_kind e) es = true) as Hex.
      { apply existsb_exists. exists e'. split; [exact Hin'|].
        unfold same_kind. rewrite Hk. apply Nat.eqb_refl. }
      congruence.
    + intro Hnd. inversion Hnd as [|k ks Hnot Hnd']; subst. split; [|exact Hnd'].
      destruct (existsb (same_kind e) es) eqn:Hex; [|reflexivity].
      apply existsb_exists in Hex as (e' & Hin & Hk).
      apply Nat.eqb_eq in Hk. contradiction Hnot.
      rewrite Hk. apply in_map, Hin.
Qed.

Lemma client_options_commute (e e' : OptionExpr) (c : client) :
  same_kind e e' = false ->
  denote e (denote e' c) = denote e' (denote e c).
Proof. destruct e, e'; intro H; try discriminate H; reflexivity. Qed.

Lemma client_option_overrides (e e' : OptionExpr) (c : client) :
  same_kind e e' = true ->
  denote e (denote e' c) = denote e c.
Proof. destruct e, e'; intro H; try discriminate H; reflexivity. Qed.

Lemma client_apply_options_perm (es es' : list OptionExpr) :
  Permutation es es' ->
  distinct_kinds es = true ->
  forall c, apply_options es c = apply_options es' c.
Proof.
  induction 1 as [|x l l' Hperm IH|x y l|l l' l'' H1 IH1 H2 IH2];
    intros Hd c.
  - reflexivity.
  - cbn [distinct_kinds] in Hd. apply andb_true_iff in Hd as [_ Hd].
    unfold apply_options in *. cbn [map fold_left]. apply IH, Hd.
  - cbn [distinct_kinds existsb] in Hd.
    apply andb_true_iff in Hd as [Hy _].
    apply negb_true_iff, orb_false_iff in Hy as [Hyx _].
    unfold apply_options. cbn [map fold_left].
    rewrite (client_options_commute x y c); [reflexivity|].
    unfold same_kind in *. rewrite Nat.eqb_sym. exact Hyx.
  - rewrite (IH1 Hd c). apply IH2.
    apply client_distinct_kinds_NoDup.
    apply (Permutation_NoDup (l := map option_kind l)).
    + apply Permutation_map, H1.
    + apply client_distinct_kinds_NoDup, Hd.
Qed.

(** X6.  Options that call different functions of options.go can be given
    in any order: two lists that are permutations of each other build the
    same client. *)
Theorem options_order_is_irrelevant (es es' : list OptionExpr) :
  distinct_kinds es = true ->
  Permutation es es' ->
  newClient (map denote es) = newClient (map denote es').
Proof.
  intros Hd Hperm.
  exact (client_apply_options_perm es es' Hperm Hd new_client).
Qed.

(** X7.  An option given once among options of other kinds takes effect
    wherever it stands in the list: each field it assigns holds, in the
    client built, the value the option carries. *)
Theorem option_takes_effect (es : list OptionExpr) (e : OptionExpr)
        (f : field) :
  distinct_kinds es = true ->
  In e es ->
  assigns e f = true ->
  same_at f (denote e new_client) (newClient (map denote es)).
Proof.
  intros Hd Hin Ha.
  apply in_split in Hin as (l1 & l2 & ->).
  assert (Hperm : Permutation (l1 ++ e :: l2) ((l1 ++ l2) ++ [e])).
  { apply Permutation_sym. rewrite <- Permutation_cons_append.
    apply Permutation_middle. }
  change (newClient (map denote (l1 ++ e :: l2)))
    with (apply_options (l1 ++ e :: l2) new_client).
  rewrite (client_apply_options_perm _ _ Hperm Hd new_client).
  unfold apply_options. rewrite map_app, fold_left_app. cbn [map fold_left].
  set (c := fold_left _ _ _).
  destruct e, f; cbn in Ha; try discriminate Ha; reflexivity.
Qed.

(** X8.  A field that none of the options given assigns keeps the zero
    value of [new(client)]. *)
Theorem unassigned_field_stays_zero (es : list OptionExpr) (f : field) :
  forallb (fun e => negb (assigns e f)) es = true ->
  same_at f new_client (newClient (map denote es)).
Proof.
  intro Hall. unfold newClient.
  assert (Hgen : forall c0,
             same_at f new_client c0 ->
             same_at f new_client
                     (fold_left (fun client option => option client)
                                (map denote es) c0)).
  { induction es as [|e es IH]; intros c0 H0; [exact H0|].
    cbn [forallb] in Hall. apply andb_true_iff in Hall as [He Hes].
    apply negb_true_iff in He. cbn [map fold_left].
    apply (IH Hes).
    pose proof (client_frame e f c0 He) as Hf.
    destruct f; cbn in *; congruence. }
  apply Hgen. destruct f; reflexivity.
Qed.

(** X9.  Of two options of the same kind given one after the other, only
    the later one counts. *)
Theorem later_option_overrides (es : list OptionExpr) (e e' : OptionExpr) :
  same_kind e e' = true ->
  newClient (map denote (es ++ [e'; e])) = newClient (map denote (es ++ [e])).
Proof.
  intro Hk. unfold newClient. rewrite !map_app, !fold_left_app.
  cbn [map fold_left]. apply client_option_overrides, Hk.
Qed.

End ClientOptions.

Section RpsOptions.

Import rps rps_fields rps_options.

Lemma rps_distinct_kinds_NoDup (es : list OptionExpr) :
  distinct_kinds es = true <-> NoDup (map option_kind es).
Proof.
  induction es as [|e es IH]; cbn [distinct_kinds map].
  - split; [constructor | reflexivity].
  - rewrite andb_true_iff, negb_true_iff, IH. split.
    + intros [Hnot Hnd]. constructor; [|exact Hnd].
      intro Hin. apply in_map_iff in Hin as (e' & Hk & Hin').
      assert (existsb (same_kind e) es = true) as Hex.
      { apply existsb_exists. exists e'. split; [exact Hin'|].
        unfold same_kind. rewrite Hk. apply Nat.eqb_refl. }
      congruence.
    + intro Hnd. inversion Hnd as [|k ks Hnot Hnd']; subst. split; [|exact Hnd'].
      destruct (existsb (same_kind e) es) eqn:Hex; [|reflexivity].
      apply existsb_exists in Hex as (e' & Hin & Hk).
      apply Nat.eqb_eq in Hk. contradiction Hnot.
      rewrite Hk. apply in_map, Hin.
Qed.

Lemma rps_options_commute (e e' : OptionExpr) (c : resumeParsingServiceClient) :
  same_kind e e' = false ->
  denote e (denote e' c) = denote e' (denote e c).
Proof. destruct e, e'; intro H; try discriminate H; reflexivity. Qed.

Lemma rps_option_overrides (e e' : OptionExpr) (c : resumeParsingServiceClient) :
  same_kind e e' = true ->
  denote e (denote e' c) = denote e c.
Proof. destruct e, e'; intro H; try discriminate H; reflexivity. Qed.

Lemma rps_apply_options_perm (es es' : list OptionExpr) :
  Permutation es es' ->
  distinct_kinds es = true ->
  forall c, apply_options es c = apply_options es' c.
Proof.
  induction 1 as [|x l l' Hperm IH|x y l|l l' l'' H1 IH1 H2 IH2];
    intros Hd c.
  - reflexivity.
  - cbn [distinct_kinds] in Hd. apply andb_true_iff in Hd as [_ Hd].
    unfold apply_options in *. cbn [map fold_left]. apply IH, Hd.
  - cbn [distinct_kinds existsb] in Hd.
    apply andb_true_iff in Hd as [Hy _].
    apply negb_true_iff, orb_false_iff in Hy as [Hyx _].
    unfold apply_options. cbn [map fold_left].
    rewrite (rps_options_commute x y c); [reflexivity|].
    unfold same_kind in *. rewrite Nat.eqb_sym. exact Hyx.
  - rewrite (IH1 Hd c). apply IH2.
    apply rps_distinct_kinds_NoDup.
    apply (Permutation_NoDup (l := map option_kind l)).
    + apply Permutation_map, H1.
    + apply rps_distinct_kinds_NoDup, Hd.
Qed.

(** X11.  The options of rps can be given in any order too, as long as
    no two of them call the same function. *)
Theorem rps_options_order_is_irrelevant (es es' : list OptionExpr) :
  distinct_kinds es = true ->
  Permutation es es' ->
  newResumeParsingServiceClient (map denote es) = newResumeParsingServiceClient (map denote es').
Proof.
  intros Hd Hperm.
  exact (rps_apply_options_perm es es' Hperm Hd new_resumeParsingServiceClient).
Qed.

(** X12.  An option of rps given once among options of other kinds takes
    effect wherever it stands in the list. *)
Theorem rps_option_takes_effect (es : list OptionExpr) (e : OptionExpr)
        (f : field) :
  distinct_kinds es = true ->
  In e es ->
  assigns e f = true ->
  same_at f (denote e new_resumeParsingServiceClient) (newResumeParsingServiceClient (map denote es)).
Proof.
  intros Hd Hin Ha.
  apply in_split in Hin as (l1 & l2 & ->).
  assert (Hperm : Permutation (l1 ++ e :: l2) ((l1 ++ l2) ++ [e])).
  { apply Permutation_sym. rewrite <- Permutation_cons_append.
    apply Permutation_middle. }
  change (newResumeParsingServiceClient (map denote (l1 ++ e :: l2)))
    with (apply_options (l1 ++ e :: l2) new_resumeParsingServiceClient).
  rewrite (rps_apply_options_perm _ _ Hperm Hd new_resumeParsingServiceClient).
  unfold apply_options. rewrite map_app, fold_left_app. cbn [map fold_left].
  set (c := fold_left _ _ _).
  destruct e, f; cbn in Ha; try discriminate Ha; reflexivity.
Qed.

End RpsOptions.

(** ** Construction *)

Section Constructors.

Variable NewClient : retryablehttp.Client.

(** X10.  [New] always returns a client.  The client keeps the fields the
    options set, and its wrapper carries [maxRetries], [retryWaitMin] and
    [retryWaitMax] as the retry bound and back-off window and the custom
    predicate or else [doNotRetryPolicy]; none of the dependency's own
    settings survives, only its transport. *)
Theorem New_carries_settings (options : list httpclient.Option) :
  exists rhc,
    httpclient.New NewClient options
    = Some (httpclient.set_retryableHttpClient
              (httpclient.newClient options)
              (httpclient.retryableHttpClientWrapper rhc)) /\
    retryablehttp.RetryMax rhc
    = httpclient.maxRetries (httpclient.newClient options) /\
    retryablehttp.RetryWaitMin rhc
    = httpclient.retryWaitMin (httpclient.newClient options) /\
    retryablehttp.RetryWaitMax rhc
    = httpclient.retryWaitMax (httpclient.newClient options) /\
    retryablehttp.Client_CheckRetry rhc
    = policy_or_default
        (httpclient.checkRetryPolicy (httpclient.newClient options)) /\
    retryablehttp.HTTPClient rhc = retryablehttp.HTTPClient NewClient.
Proof.
  rewrite New_eq. eexists. split; [reflexivity|]. repeat split.
Qed.

(** X13.  [NewResumeParsingServiceClient] always returns a client; it
    holds the token and base URL given and, in each of its nine option
    fields, what the options set; and its HTTP client holds the same nine
    values, so that the retry loop runs with the rps client's [maxRetries],
    waits and predicate (or [doNotRetryPolicy] when that is nil). *)
Theorem rps_settings_reach_http_client (rioParseToken rioParseBaseUrl : string)
        (options : list rps.Option) :
  exists r h rhc,
    rps.NewResumeParsingServiceClient (httpclient.New NewClient)
                                      rioParseToken rioParseBaseUrl options
    = Some r /\
    rps.httpClient r = Some h /\
    httpclient.retryableHttpClient h
    = httpclient.retryableHttpClientWrapper rhc /\
    rps.rioParseToken r = rioParseToken /\
    rps.rioParseBaseUrl r = rioParseBaseUrl /\
    (rps.checkRetryPolicy r
     = rps.checkRetryPolicy (rps.newResumeParsingServiceClient options) /\
     rps.maxIdleConns r
     = rps.maxIdleConns (rps.newResumeParsingServiceClient options) /\
     rps.maxIdleConnsPerHost r
     = rps.maxIdleConnsPerHost (rps.newResumeParsingServiceClient options) /\
     rps.maxConnsPerHost r
     = rps.maxConnsPerHost (rps.newResumeParsingServiceClient options) /\
     rps.maxRetries r
     = rps.maxRetries (rps.newResumeParsingServiceClient options) /\
     rps.retryWaitMin r
     = rps.retryWaitMin (rps.newResumeParsingServiceClient options) /\
     rps.retryWaitMax r
     = rps.retryWaitMax (rps.newResumeParsingServiceClient options) /\
     rps.requestDumpLogger r
     = rps.requestDumpLogger (rps.newResumeParsingServiceClient options) /\
     rps.dumpRequestBody r
     = rps.dumpRequestBody (rps.newResumeParsingServiceClient options)) /\
    (httpclient.maxIdleConns h = rps.maxIdleConns r /\
     httpclient.maxIdleConnsPerHost h = rps.maxIdleConnsPerHost r /\
     httpclient.maxConnsPerHost h = rps.maxConnsPerHost r /\
     httpclient.maxRetries h = rps.maxRetries r /\
     httpclient.retryWaitMin h = rps.retryWaitMin r /\
     httpclient.retryWaitMax h = rps.retryWaitMax r /\
     httpclient.checkRetryPolicy h = rps.checkRetryPolicy r /\
     httpclient.requestDumpLogger h = rps.requestDumpLogger r /\
     httpclient.dumpRequestBody h = rps.dumpRequestBody r) /\
    (retryablehttp.RetryMax rhc = rps.maxRetries r /\
     retryablehttp.RetryWaitMin rhc = rps.retryWaitMin r /\
     retryablehttp.RetryWaitMax rhc = rps.retryWaitMax r /\
     retryablehttp.Client_CheckRetry rhc
     = policy_or_default (rps.checkRetryPolicy r)).
Proof.
  unfold rps.NewResumeParsingServiceClient. rewrite New_eq.
  do 3 eexists. split; [reflexivity|]. cbn. repeat split.
Qed.

End Constructors.

(** ** [ParseDocument] *)

Section ParseDocumentPaths.

Variable Resume : Type.
Variable zero_Resume : Resume.
Variable ioReadAll : ReadCloser -> bytes * option error.
Variable jsonDecode : ReadCloser -> Resume -> Resume * option error.
Variable dumpRequestOut : Request -> bool -> bytes * option error.
Variable jsonMarshal : rps.parseDocumentRequest -> bytes * option error.
Variable newRequestWithContext :
  Context -> string -> string -> bytes -> option Request * option error.
Variable base64_EncodeToString : bytes -> string.

Variable r : rps.resumeParsingServiceClient.
Variable ctx : Context.
Variable fileContents : bytes.

(** Once the request is built, [ParseDocument] is [sendRequest] on the
    request with its two headers, followed by the handling of what came
    back. *)
Lemma ParseDocument_sends (h : httpclient.client) (j : bytes) (req : Request) :
  rps.httpClient r = Some h ->
  jsonMarshal (rps.mkparseDocumentRequest (base64_EncodeToString fileContents))
    = (j, None) ->
  newRequestWithContext ctx "POST" (rps.rioParseBaseUrl r ++ "/api/parse") j
    = (Some req, None) ->
  rps.ParseDocument Resume zero_Resume ioReadAll jsonDecode dumpRequestOut
                    jsonMarshal newRequestWithContext base64_EncodeToString
                    r ctx fileContents
  = bind (httpclient.sendRequest Resume ioReadAll jsonDecode dumpRequestOut
                                 h (with_headers r req) (Some zero_Resume))
         (fun x =>
            match x with
            | (_, _, Some e) =>
                ret (None, Some (ErrWrap (HttpError_as_error e)
                                         "performing request"))
            | (Some resp, resume, None) =>
                bind (emit (EvBodyClose (rc_id (resp_Body resp))))
                     (fun _ => ret (resume, None))
            | (None, _, None) => panic
            end).
Proof.
  intros Hh Hmarshal Hreq. unfold rps.ParseDocument. rewrite Hmarshal.
  change (rps.rioParseBaseUrl r ++ "/" ++ "api/parse")
    with (rps.rioParseBaseUrl r ++ "/api/parse").
  rewrite Hreq, Hh. fold (with_headers r req).
  unfold httpclient.SendRequestAndUnmarshallJsonResponse.
  destruct (httpclient.sendRequest Resume ioReadAll jsonDecode dumpRequestOut
              h (with_headers r req) (Some zero_Resume))
    as [[[[resp resume] [e|]]|] t]; cbn [bind]; try reflexivity.
  destruct resp; reflexivity.
Qed.

Lemma ParseDocument_marshal_error (j : bytes) (e : error) :
  jsonMarshal (rps.mkparseDocumentRequest (base64_EncodeToString fileContents))
    = (j, Some e) ->
  rps.ParseDocument Resume zero_Resume ioReadAll jsonDecode dumpRequestOut
                    jsonMarshal newRequestWithContext base64_EncodeToString
                    r ctx fileContents
  = (Some (None, Some (ErrWrap e "marshalling parse document request")), []).
Proof.
  intro Hmarshal. unfold rps.ParseDocument. rewrite Hmarshal. reflexivity.
Qed.

Lemma ParseDocument_request_error (j : bytes) (req : option Request)
      (e : error) :
  jsonMarshal (rps.mkparseDocumentRequest (base64_EncodeToString fileContents))
    = (j, None) ->
  newRequestWithContext ctx "POST" (rps.rioParseBaseUrl r ++ "/api/parse") j
    = (req, Some e) ->
  rps.ParseDocument Resume zero_Resume ioReadAll jsonDecode dumpRequestOut
                    jsonMarshal newRequestWithContext base64_EncodeToString
                    r ctx fileContents
  = (Some (None, Some (ErrWrap e "creating request")), []).
Proof.
  intros Hmarshal Hreq. unfold rps.ParseDocument. rewrite Hmarshal.
  change (rps.rioParseBaseUrl r ++ "/" ++ "api/parse")
    with (rps.rioParseBaseUrl r ++ "/api/parse").
  rewrite Hreq. reflexivity.
Qed.

(** X14.  When marshalling the payload fails, or building the request
    fails, [ParseDocument] returns that failure wrapped ("marshalling parse
    document request", "creating request") and no resume, and nothing has
    been sent, logged, read or closed. *)
Theorem ParseDocument_fails_before_sending :
  (forall j e,
      jsonMarshal (rps.mkparseDocumentRequest
                     (base64_EncodeToString fileContents)) = (j, Some e) ->
      rps.ParseDocument Resume zero_Resume ioReadAll jsonDecode dumpRequestOut
                        jsonMarshal newRequestWithContext base64_EncodeToString
                        r ctx fileContents
      = (Some (None,
               Some (ErrWrap e "marshalling parse document request")), []))
  /\
  (forall j req e,
      jsonMarshal (rps.mkparseDocumentRequest
                     (base64_EncodeToString fileContents)) = (j, None) ->
      newRequestWithContext ctx "POST"
                            (rps.rioParseBaseUrl r ++ "/api/parse") j
      = (req, Some e) ->
      rps.ParseDocument Resume zero_Resume ioReadAll jsonDecode dumpRequestOut
                        jsonMarshal newRequestWithContext base64_EncodeToString
                        r ctx fileContents
      = (Some (None, Some (ErrWrap e "creating request")), [])).
Proof.
  split.
  - intros j e. apply ParseDocument_marshal_error.
  - intros j req e. apply ParseDocument_request_error.
Qed.

(** X15.  When the request ends with a response of 400 or more,
    [ParseDocument] returns no resume and the structured error wrapped as
    "performing request"; the error names the URL of the request built and
    the response's status; and on top of whatever [Do] did to it, the
    response's body has been read once and closed once: on this path
    [ParseDocument] closes nothing itself. *)
Theorem ParseDocument_failed_request (h : httpclient.client) (j : bytes)
        (req : Request) (resp : Response) (err : option error) :
  rps.httpClient r = Some h ->
  jsonMarshal (rps.mkparseDocumentRequest (base64_EncodeToString fileContents))
    = (j, None) ->
  newRequestWithContext ctx "POST" (rps.rioParseBaseUrl r ++ "/api/parse") j
    = (Some req, None) ->
  value_of (httpclient.Do (httpclient.retryableHttpClient h)
                          (with_headers r req))
    = Some (Some resp, err) ->
  400 <= resp_StatusCode resp ->
  exists herr,
    value_of (rps.ParseDocument Resume zero_Resume ioReadAll jsonDecode
                dumpRequestOut jsonMarshal newRequestWithContext
                base64_EncodeToString r ctx fileContents)
    = Some (None, Some (ErrWrap (HttpError_as_error herr)
                                "performing request")) /\
    Url herr = URL req /\
    StatusCode herr = resp_StatusCode resp /\
    reads_of (rc_id (resp_Body resp))
      (trace_of (rps.ParseDocument Resume zero_Resume ioReadAll jsonDecode
                   dumpRequestOut jsonMarshal newRequestWithContext
                   base64_EncodeToString r ctx fileContents))
    = S (reads_of (rc_id (resp_Body resp))
           (trace_of (httpclient.Do (httpclient.retryableHttpClient h)
                                    (with_headers r req)))) /\
    closes_of (rc_id (resp_Body resp))
      (trace_of (rps.ParseDocument Resume zero_Resume ioReadAll jsonDecode
                   dumpRequestOut jsonMarshal newRequestWithContext
                   base64_EncodeToString r ctx fileContents))
    = S (closes_of (rc_id (resp_Body resp))
           (trace_of (httpclient.Do (httpclient.retryableHttpClient h)
                                    (with_headers r req)))).
Proof.
  intros Hh Hmarshal Hreq Hdo Hge.
  rewrite (ParseDocument_sends h j req Hh Hmarshal Hreq).
  rewrite sendRequest_eq, client_do_cases.
  pose proof (logRequestDump_reads_nothing dumpRequestOut
                (rc_id (resp_Body resp)) h (with_headers r req)) as Hlr.
  pose proof (logRequestDump_closes_nothing dumpRequestOut
                (rc_id (resp_Body resp)) h (with_headers r req)) as Hlc.
  destruct (httpclient.Do (httpclient.retryableHttpClient h)
                          (with_headers r req)) as [[[resp' err']|] t];
    cbn in Hdo; inversion Hdo; subst resp' err'; clear Hdo.
  apply Z.leb_le in Hge. rewrite Hge.
  exists (unsuccessful_response_error ioReadAll (URL (with_headers r req))
                                      resp err).
  cbn [bind value_of trace_of fst snd ret].
  split; [reflexivity|].
  split.
  { unfold unsuccessful_response_error.
    destruct (ioReadAll (resp_Body resp)) as [bs [e|]]; reflexivity. }
  split.
  { unfold unsuccessful_response_error.
    destruct (ioReadAll (resp_Body resp)) as [bs [e|]]; reflexivity. }
  rewrite app_nil_r, !reads_of_app, !closes_of_app, Hlr, Hlc.
  cbn. rewrite Nat.eqb_refl, !Nat.add_1_r. split; reflexivity.
Qed.

(** X16.  Whenever [ParseDocument] returns, it returns either a resume and
    no error or an error and no resume, never both and never neither. *)
Theorem ParseDocument_result_or_error (res : option Resume)
        (err : option error) :
  value_of (rps.ParseDocument Resume zero_Resume ioReadAll jsonDecode
              dumpRequestOut jsonMarshal newRequestWithContext
              base64_EncodeToString r ctx fileContents)
  = Some (res, err) ->
  (res = None /\ err <> None) \/ (res <> None /\ err = None).
Proof.
  destruct (jsonMarshal (rps.mkparseDocumentRequest
                           (base64_EncodeToString fileContents)))
    as [j [e|]] eqn:Hmarshal.
  { rewrite (ParseDocument_marshal_error j e Hmarshal).
    intro H. inversion H; subst. left. split; [reflexivity | discriminate]. }
  destruct (newRequestWithContext ctx "POST"
              (rps.rioParseBaseUrl r ++ "/api/parse") j)
    as [req [e|]] eqn:Hreq.
  { rewrite (ParseDocument_request_error j req e Hmarshal Hreq).
    intro H. inversion H; subst. left. split; [reflexivity | discriminate]. }
  destruct req as [req|], (rps.httpClient r) as [h|] eqn:Hh.
  - rewrite (ParseDocument_sends h j req Hh Hmarshal Hreq).
    rewrite bind_value, sendRequest_eq. cbn [value_of fst].
    rewrite client_do_cases.
    destruct (httpclient.Do (httpclient.retryableHttpClient h)
                            (with_headers r req)) as [[[[rs|] derr]|] t];
      cbn [fst]; [| |discriminate].
    + destruct (400 <=? resp_StatusCode rs).
      * cbn. intro H. inversion H; subst.
        left. split; [reflexivity | discriminate].
      * destruct derr as [e|].
        -- cbn. intro H. inversion H; subst.
           left. split; [reflexivity | discriminate].
        -- destruct (snd (jsonDecode (resp_Body rs) zero_Resume)) as [e|];
             cbn; intro H; inversion H; subst.
           ++ left. split; [reflexivity | discriminate].
           ++ right. split; [discriminate | reflexivity].
    + destruct derr as [e|]; cbn; [|discriminate].
      intro H. inversion H; subst. left. split; [reflexivity | discriminate].
  - unfold rps.ParseDocument. rewrite Hmarshal.
    change (rps.rioParseBaseUrl r ++ "/" ++ "api/parse")
      with (rps.rioParseBaseUrl r ++ "/api/parse").
    rewrite Hreq, Hh. discriminate.
  - unfold rps.ParseDocument. rewrite Hmarshal.
    change (rps.rioParseBaseUrl r ++ "/" ++ "api/parse")
      with (rps.rioParseBaseUrl r ++ "/api/parse").
    rewrite Hreq. discriminate.
  - unfold rps.ParseDocument. rewrite Hmarshal.
    change (rps.rioParseBaseUrl r ++ "/" ++ "api/parse")
      with (rps.rioParseBaseUrl r ++ "/api/parse").
    rewrite Hreq. discriminate.
Qed.

(** X17.  When [Do] returns neither a response nor an error, [client_do]
    reports success with a nil response, and [ParseDocument] then
    dereferences that nil response: it panics instead of returning. *)
Theorem ParseDocument_nil_response_panics (h : httpclient.client) (j : bytes)
        (req : Request) :
  rps.httpClient r = Some h ->
  jsonMarshal (rps.mkparseDocumentRequest (base64_EncodeToString fileContents))
    = (j, None) ->
  newRequestWithContext ctx "POST" (rps.rioParseBaseUrl r ++ "/api/parse") j
    = (Some req, None) ->
  value_of (httpclient.Do (httpclient.retryableHttpClient h)
                          (with_headers r req))
    = Some (None, None) ->
  value_of (httpclient.client_do Resume ioReadAll jsonDecode h
                                 (with_headers r req) (Some zero_Resume))
  = Some (None, Some zero_Resume, None) /\
  value_of (rps.ParseDocument Resume zero_Resume ioReadAll jsonDecode
              dumpRequestOut jsonMarshal newRequestWithContext
              base64_EncodeToString r ctx fileContents)
  = None.
Proof.
  intros Hh Hmarshal Hreq Hdo.
  rewrite (ParseDocument_sends h j req Hh Hmarshal Hreq).
  rewrite bind_value, sendRequest_eq. cbn [value_of fst].
  rewrite client_do_cases.
  destruct (httpclient.Do (httpclient.retryableHttpClient h)
                          (with_headers r req)) as [[[resp' err']|] t];
    cbn in Hdo; inversion Hdo; subst resp' err'.
  split; reflexivity.
Qed.

End ParseDocumentPaths.

(** ** What the connection limits do *)

Section ConnectionLimits.

Import httpclient httpclient_options.

Variable Value : Type.
Variable ioReadAll : ReadCloser -> bytes * option error.
Variable jsonDecode : ReadCloser -> Value -> Value * option error.
Variable dumpRequestOut : Request -> bool -> bytes * option error.
Variable NewClient : retryablehttp.Client.

Lemma sendRequest_reads_three_fields (c c' : client) (req : Request)
      (v : option Value) :
  retryableHttpClient c = retryableHttpClient c' ->
  requestDumpLogger c = requestDumpLogger c' ->
  dumpRequestBody c = dumpRequestBody c' ->
  sendRequest Value ioReadAll jsonDecode dumpRequestOut c req v
  = sendRequest Value ioReadAll jsonDecode dumpRequestOut c' req v.
Proof.
  intros Hr Hl Hb. unfold sendRequest, logRequestDump, client_do.
  rewrite Hr, Hl, Hb. reflexivity.
Qed.

Lemma connection_limits_frame (es : list OptionExpr) :
  forall c0 c0',
    (maxRetries c0 = maxRetries c0' /\
     checkRetryPolicy c0 = checkRetryPolicy c0' /\
     retryWaitMin c0 = retryWaitMin c0' /\
     retryWaitMax c0 = retryWaitMax c0' /\
     requestDumpLogger c0 = requestDumpLogger c0' /\
     dumpRequestBody c0 = dumpRequestBody c0') ->
    let c := apply_options es c0 in
    let c' := apply_options (without_connection_limits es) c0' in
    maxRetries c = maxRetries c' /\
    checkRetryPolicy c = checkRetryPolicy c' /\
    retryWaitMin c = retryWaitMin c' /\
    retryWaitMax c = retryWaitMax c' /\
    requestDumpLogger c = requestDumpLogger c' /\
    dumpRequestBody c = dumpRequestBody c'.
Proof.
  induction es as [|e es IH]; intros c0 c0' H; [exact H|].
  unfold apply_options, without_connection_limits in *.
  cbn [filter map fold_left].
  destruct H as (H1 & H2 & H3 & H4 & H5 & H6).
  destruct e; cbn [is_connection_limit negb map fold_left denote];
    apply IH; cbn; repeat split; assumption.
Qed.

(** X19.  The three connection limits are stored and never applied: a
    client built with [WithMaxIdleConns], [WithMaxIdleConnsPerHost] or
    [WithMaxConnsPerHost] among its options sends every request exactly as
    the client built without them does. *)
Theorem connection_limits_are_never_applied (es : list OptionExpr)
        (req : Request) (v : option Value) :
  exists c c',
    New NewClient (map denote es) = Some c /\
    New NewClient (map denote (without_connection_limits es)) = Some c' /\
    sendRequest Value ioReadAll jsonDecode dumpRequestOut c req v
    = sendRequest Value ioReadAll jsonDecode dumpRequestOut c' req v.
Proof.
  rewrite !New_eq. do 2 eexists. split; [reflexivity|]. split; [reflexivity|].
  destruct (connection_limits_frame es new_client new_client)
    as (H1 & H2 & H3 & H4 & H5 & H6); [repeat split|].
  unfold apply_options in *. fold (newClient (map denote es)) in *.
  fold (newClient (map denote (without_connection_limits es))) in *.
  apply sendRequest_reads_three_fields; cbn.
  - rewrite H1, H2, H3, H4. reflexivity.
  - exact H5.
  - exact H6.
Qed.

End ConnectionLimits.

(** ** The example's retry predicate *)

(** X18.  [retryIfInternalServerError] asks for a retry exactly when there
    is a response and its status is 500: never for a transport error
    without a response, and never for another status; and it hands the
    attempt's error back unchanged. *)
Theorem retryIfInternalServerError_only_on_500 (ctx : Context)
        (resp : option Response) (err : option error) :
  snd (example.retryIfInternalServerError ctx resp err) = err /\
  (fst (example.retryIfInternalServerError ctx resp err) = true <->
   exists r, resp = Some r /\ resp_StatusCode r = 500).
Proof.
  unfold example.retryIfInternalServerError.
  destruct resp as [r|].
  - destruct (Z.eqb_spec (resp_StatusCode r) StatusInternalServerError)
      as [Heq|Hne]; cbn [fst snd]; (split; [reflexivity|]).
    + split; [intros _; exists r; split; [reflexivity | exact Heq] | reflexivity].
    + split; [discriminate|]. intros (r0 & Hr & Hs).
      inversion Hr; subst. contradiction.
  - cbn. split; [reflexivity|]. split; [discriminate|].
    intros (r0 & Hr & _). discriminate Hr.
Qed.

(** ** The further theorems at work *)

Lemma do_succeeds_exactly_when_witness :
  value_of (httpclient.Do (httpclient.retryableHttpClient cases.ok_http_client)
                          example.some_path_request)
  = Some (Some scenario.ok_response, None) /\
  exists v',
    value_of (httpclient.client_do
                example.dummyType io_ReadAll example.jsonDecode_dummyType
                cases.ok_http_client example.some_path_request
                (Some (example.mkdummyType "")))
    = Some (Some scenario.ok_response, v', None).
Proof.
  split; [reflexivity|].
  destruct (do_succeeds_exactly_when
              example.dummyType io_ReadAll example.jsonDecode_dummyType
              cases.ok_http_client example.some_path_request
              (Some (example.mkdummyType ""))
              (Some scenario.ok_response) None eq_refl)
    as (v' & herr & Hvalue & Hiff).
  exists v'. rewrite Hvalue.
  assert (Hnone : herr = None).
  { apply Hiff. split; [reflexivity|]. split.
    - intros r Hr. inversion Hr; subst. status_arith.
    - intros r d Hr Hd. inversion Hr; inversion Hd; subst. reflexivity. }
  rewrite Hnone. reflexivity.
Defined.

Lemma error_names_request_witness :
  value_of (httpclient.sendRequest
              example.dummyType io_ReadAll example.jsonDecode_dummyType
              example.dumpRequestOut_wire cases.failing_http_client
              example.some_path_request None)
  = Some (Some scenario.internal_error_response, None,
          Some (mkHttpError "http://localhost/some/path" 500
                            scenario.error_body None)) /\
  Url (mkHttpError "http://localhost/some/path" 500 scenario.error_body None)
  = URL example.some_path_request.
Proof.
  split; [reflexivity|].
  exact (proj1 (error_names_request
                  example.dummyType io_ReadAll example.jsonDecode_dummyType
                  example.dumpRequestOut_wire cases.failing_http_client
                  example.some_path_request None None
                  (Some scenario.internal_error_response) _ eq_refl)).
Defined.

Lemma target_untouched_on_failure_witness :
  value_of (httpclient.Do
              (httpclient.retryableHttpClient cases.failing_http_client)
              example.some_path_request)
  = Some (Some scenario.internal_error_response, None) /\
  400 <= resp_StatusCode scenario.internal_error_response /\
  exists h,
    value_of (httpclient.client_do
                example.dummyType io_ReadAll example.jsonDecode_dummyType
                cases.failing_http_client example.some_path_request
                (Some (example.mkdummyType "before")))
    = Some (Some scenario.internal_error_response,
            Some (example.mkdummyType "before"), Some h).
Proof.
  assert (Hge : 400 <= resp_StatusCode scenario.internal_error_response)
    by status_arith.
  split; [reflexivity|]. split; [exact Hge|].
  destruct (target_untouched_on_failure
              example.dummyType io_ReadAll example.jsonDecode_dummyType
              cases.failing_http_client example.some_path_request
              (Some (example.mkdummyType "before"))
              (Some scenario.internal_error_response) None eq_refl
              (or_intror (ex_intro _ scenario.internal_error_response
                                   (conj eq_refl Hge))))
    as (h & Hvalue & _).
  exists h. exact Hvalue.
Defined.

Lemma body_read_as_often_as_closed_witness :
  value_of (httpclient.Do (httpclient.retryableHttpClient cases.ok_http_client)
                          example.some_path_request)
  = Some (Some scenario.ok_response, None) /\
  closes_of 1
    (trace_of (httpclient.sendRequest
                 example.dummyType io_ReadAll example.jsonDecode_dummyType
                 example.dumpRequestOut_wire cases.ok_http_client
                 example.some_path_request None))
  = 0%nat /\
  closes_of 1
    (trace_of (httpclient.sendRequest
                 example.dummyType io_ReadAll example.jsonDecode_dummyType
                 example.dumpRequestOut_wire cases.ok_http_client
                 example.some_path_request (Some (example.mkdummyType ""))))
  = 1%nat.
Proof.
  split; [reflexivity|]. split.
  - exact (proj2 (body_read_as_often_as_closed
                    example.dummyType io_ReadAll example.jsonDecode_dummyType
                    example.dumpRequestOut_wire cases.ok_http_client
                    example.some_path_request None
                    scenario.ok_response None eq_refl)).
  - exact (proj2 (body_read_as_often_as_closed
                    example.dummyType io_ReadAll example.jsonDecode_dummyType
                    example.dumpRequestOut_wire cases.ok_http_client
                    example.some_path_request (Some (example.mkdummyType ""))
                    scenario.ok_response None eq_refl)).
Defined.

Lemma options_order_is_irrelevant_witness :
  httpclient_options.distinct_kinds scenario.retrying_options = true /\
  Permutation scenario.retrying_options (rev scenario.retrying_options) /\
  httpclient.newClient (map httpclient.denote scenario.retrying_options)
  = httpclient.newClient
      (map httpclient.denote (rev scenario.retrying_options)).
Proof.
  split; [reflexivity|]. split; [apply perm_swap|].
  apply options_order_is_irrelevant; [reflexivity | apply perm_swap].
Defined.

Lemma option_takes_effect_witness :
  httpclient_options.distinct_kinds scenario.retrying_options = true /\
  In (httpclient.EMaxRetries 4) scenario.retrying_options /\
  httpclient.maxRetries
    (httpclient.newClient (map httpclient.denote scenario.retrying_options))
  = 4.
Proof.
  split; [reflexivity|]. split; [left; reflexivity|].
  symmetry.
  exact (option_takes_effect scenario.retrying_options
           (httpclient.EMaxRetries 4) httpclient_fields.f_maxRetries
           eq_refl (or_introl eq_refl) eq_refl).
Defined.

Lemma unassigned_field_stays_zero_witness :
  forallb (fun e => negb (httpclient_fields.assigns
                            e httpclient_fields.f_requestDumpLogger))
          scenario.retrying_options = true /\
  httpclient.requestDumpLogger
    (httpclient.newClient (map httpclient.denote scenario.retrying_options))
  = None.
Proof.
  split; [reflexivity|].
  symmetry.
  exact (unassigned_field_stays_zero scenario.retrying_options
           httpclient_fields.f_requestDumpLogger eq_refl).
Defined.

Lemma later_option_overrides_witness :
  httpclient_options.same_kind (httpclient.EMaxRetries 4)
                               (httpclient.EMaxRetries 1) = true /\
  httpclient.newClient
    (map httpclient.denote
         ([httpclient.ERetryWaitMin 5]
            ++ [httpclient.EMaxRetries 1; httpclient.EMaxRetries 4]))
  = httpclient.newClient
      (map httpclient.denote
           ([httpclient.ERetryWaitMin 5] ++ [httpclient.EMaxRetries 4])).
Proof.
  split; [reflexivity|].
  exact (later_option_overrides [httpclient.ERetryWaitMin 5]
           (httpclient.EMaxRetries 4) (httpclient.EMaxRetries 1) eq_refl).
Defined.

Lemma rps_options_order_is_irrelevant_witness :
  rps_options.distinct_kinds cases.rps_options = true /\
  Permutation cases.rps_options (rev cases.rps_options) /\
  rps.newResumeParsingServiceClient (map rps.denote cases.rps_options)
  = rps.newResumeParsingServiceClient
      (map rps.denote (rev cases.rps_options)).
Proof.
  split; [reflexivity|]. split; [apply perm_swap|].
  apply rps_options_order_is_irrelevant; [reflexivity | apply perm_swap].
Defined.

Lemma rps_option_takes_effect_witness :
  rps_options.distinct_kinds cases.rps_options = true /\
  In (rps.EMaxRetries 4) cases.rps_options /\
  rps.maxRetries
    (rps.newResumeParsingServiceClient (map rps.denote cases.rps_options))
  = 4.
Proof.
  split; [reflexivity|]. split; [left; reflexivity|].
  symmetry.
  exact (rps_option_takes_effect cases.rps_options (rps.EMaxRetries 4)
           rps_fields.f_maxRetries eq_refl (or_introl eq_refl) eq_refl).
Defined.

Lemma ParseDocument_fails_before_sending_witness :
  rps.ParseDocument example.Resume "" io_ReadAll
                    (example.jsonDecode_member "first_name")
                    example.dumpRequestOut_wire cases.jsonMarshal_failing
                    example.newRequestWithContext
                    example.base64_EncodeToString
                    (cases.rps_client_over cases.ok_http_client) ctx_TODO []
  = (Some (None,
           Some (ErrWrap (ErrNew "marshalling error")
                         "marshalling parse document request")), []) /\
  rps.ParseDocument example.Resume "" io_ReadAll
                    (example.jsonDecode_member "first_name")
                    example.dumpRequestOut_wire example.jsonMarshal
                    cases.newRequestWithContext_failing
                    example.base64_EncodeToString
                    (cases.rps_client_over cases.ok_http_client) ctx_TODO []
  = (Some (None,
           Some (ErrWrap (ErrNew "create request error") "creating request")),
     []).
Proof.
  split.
  - exact (proj1 (ParseDocument_fails_before_sending
                    example.Resume "" io_ReadAll
                    (example.jsonDecode_member "first_name")
                    example.dumpRequestOut_wire cases.jsonMarshal_failing
                    example.newRequestWithContext
                    example.base64_EncodeToString
                    (cases.rps_client_over cases.ok_http_client) ctx_TODO [])
                 _ _ eq_refl).
  - exact (proj2 (ParseDocument_fails_before_sending
                    example.Resume "" io_ReadAll
                    (example.jsonDecode_member "first_name")
                    example.dumpRequestOut_wire example.jsonMarshal
                    cases.newRequestWithContext_failing
                    example.base64_EncodeToString
                    (cases.rps_client_over cases.ok_http_client) ctx_TODO [])
                 _ _ _ eq_refl eq_refl).
Defined.

Lemma ParseDocument_failed_request_witness :
  400 <= resp_StatusCode scenario.internal_error_response /\
  exists herr,
    value_of (cases.run_ParseDocument_over cases.failing_http_client)
    = Some (None, Some (ErrWrap (HttpError_as_error herr)
                                "performing request")) /\
    StatusCode herr = 500 /\
    closes_of 1 (trace_of (cases.run_ParseDocument_over
                             cases.failing_http_client))
    = 1%nat.
Proof.
  assert (Hge : 400 <= resp_StatusCode scenario.internal_error_response)
    by status_arith.
  split; [exact Hge|].
  destruct (ParseDocument_failed_request
              example.Resume "" io_ReadAll
              (example.jsonDecode_member "first_name")
              example.dumpRequestOut_wire example.jsonMarshal
              example.newRequestWithContext example.base64_EncodeToString
              (cases.rps_client_over cases.failing_http_client) ctx_TODO []
              cases.failing_http_client _ _
              scenario.internal_error_response None
              eq_refl eq_refl eq_refl eq_refl Hge)
    as (herr & Hvalue & _ & Hstatus & _ & Hcloses).
  exists herr. split; [exact Hvalue|]. split; [exact Hstatus|].
  exact Hcloses.
Defined.

Lemma ParseDocument_result_or_error_witness :
  value_of (cases.run_ParseDocument_over cases.ok_http_client)
  = Some (None,
          Some (ErrWrap
                  (ErrHttp "URL/api/parse" 200 ""
                           (Some (ErrWrap (ErrNew "invalid character")
                                          "decoding response")))
                  "performing request")) /\
  ((@None example.Resume = None /\
    Some (ErrWrap
            (ErrHttp "URL/api/parse" 200 ""
                     (Some (ErrWrap (ErrNew "invalid character")
                                    "decoding response")))
            "performing request") <> None)
   \/
   (@None example.Resume <> None /\
    Some (ErrWrap
            (ErrHttp "URL/api/parse" 200 ""
                     (Some (ErrWrap (ErrNew "invalid character")
                                    "decoding response")))
            "performing request") = None)).
Proof.
  split; [reflexivity|].
  exact (ParseDocument_result_or_error
           example.Resume "" io_ReadAll
           (example.jsonDecode_member "first_name")
           example.dumpRequestOut_wire example.jsonMarshal
           example.newRequestWithContext example.base64_EncodeToString
           (cases.rps_client_over cases.ok_http_client) ctx_TODO []
           _ _ eq_refl).
Defined.

Lemma ParseDocument_nil_response_panics_witness :
  value_of (httpclient.Do
              (httpclient.retryableHttpClient cases.silent_http_client)
              (with_headers (cases.rps_client_over cases.silent_http_client)
                            (mkRequest ctx_TODO "POST" "URL/api/parse" []
                                       (fst (example.jsonMarshal
                                               (rps.mkparseDocumentRequest
                                                  ""))))))
  = Some (None, None) /\
  value_of (cases.run_ParseDocument_over cases.silent_http_client) = None.
Proof.
  split; [reflexivity|].
  exact (proj2 (ParseDocument_nil_response_panics
                  example.Resume "" io_ReadAll
                  (example.jsonDecode_member "first_name")
                  example.dumpRequestOut_wire example.jsonMarshal
                  example.newRequestWithContext example.base64_EncodeToString
                  (cases.rps_client_over cases.silent_http_client) ctx_TODO []
                  cases.silent_http_client _ _
                  eq_refl eq_refl eq_refl eq_refl)).
Defined.
